(** * OGI simulation: a shallow embedding of [src/ogi_simulation.py]

    The development follows the Python source class by class:
    [OGIAgent], [FederatedAgent] and [SimulationRunner] are modules whose
    definitions carry the names of the methods they embed.

    Modelling conventions.
    - A Python [float] is an exact rational ([Q]); rounding, infinities
      and NaN are not modelled.  Python's [min] and [max] are written out
      with the comparison they perform ([py_min], [py_max]).
    - A Python [int] that is a counter starting at 0 is a [nat]; the
      Runner's agent and cycle counts are [Z].
    - A [dict] keyed by strings is a [gmap string Q]; the dictionaries
      with a fixed set of keys (hypothesis, result, ledger entry, metric
      record) are records.
    - The process-wide random generator, the wall clock, [math.log],
      [str] and [hash] belong to the host, not to the repository: they
      are the operations of the class [Host], over an abstract [World]
      that is threaded through every call in the order the source
      performs them.
    - What the program prints is left out, as are the files and charts
      written after the run. *)

From Stdlib Require Import QArith Qminmax Qabs Lqa.
From stdpp Require Import gmap strings list pretty.

Local Open Scope Q_scope.

(** ** Python's comparisons on floats *)

Definition Qltb (x y : Q) : bool :=
  match x ?= y with Lt => true | _ => false end.

(** [min(a, b)]: [b] if [b < a], else [a]. *)
Definition py_min (a b : Q) : Q := if Qltb b a then b else a.

(** [max(a, b)]: [b] if [b > a], else [a]. *)
Definition py_max (a b : Q) : Q := if Qltb a b then b else a.

(** [np.mean] of a list of floats (numpy yields nan on an empty list, where
    this quotient is 0). *)
Definition np_mean (l : list Q) : Q :=
  fold_right Qplus 0 l / inject_Z (Z.of_nat (length l)).

(** [range(n)] for an integer [n]: empty when [n <= 0]. *)
Definition py_range (n : Z) : list nat := seq 0 (Z.to_nat n).

(** [f"{n:02d}"] for a counter [n]. *)
Definition fmt_02d (n : nat) : string :=
  if (n <? 10)%nat then "0" +:+ pretty n else pretty n.

(** ** The dictionaries passed between the agent's methods *)

Record HypothesisRec := mkHypothesis {
  h_type : string;
  h_target : string;
  h_proposed_change : string;
  h_confidence : Q
}.

Record CycleResult := mkCycleResult {
  hypothesis : HypothesisRec;
  success_rate : Q;
  validation_passed : bool;
  insights_gained : Z
}.

(** ** The host: random generator, clock, [math.log], [str] and [hash] *)

Class Host (World : Type) := {
  random_choice : list string -> World -> string * World;
  random_uniform : Q -> Q -> World -> Q * World;
  random_randint : Z -> Z -> World -> Z * World;
  random_gauss : Q -> Q -> World -> Q * World;
  datetime_now_isoformat : World -> string * World;
  math_log : Q -> Q;
  py_str : CycleResult -> string;
  py_hash : string -> Z
}.

(** ** State passing over the world *)

Definition M (World A : Type) : Type := World -> A * World.

Definition ret {World A} (a : A) : M World A := fun w => (a, w).

Definition bind {World A B} (c : M World A) (k : A -> M World B) : M World B :=
  fun w => let (a, w') := c w in k a w'.

Notation "'let*' x ':=' c 'in' k" := (bind c (fun x => k))
  (at level 10, x name, c at level 100, k at level 200).

Fixpoint mapM {World A B} (f : A -> M World B) (l : list A) : M World (list B) :=
  match l with
  | [] => ret []
  | x :: l' => let* y := f x in let* ys := mapM f l' in ret (y :: ys)
  end.

Fixpoint foldM {World A S} (f : S -> A -> M World S) (s : S) (l : list A) : M World S :=
  match l with
  | [] => ret s
  | x :: l' => let* s' := f s x in foldM f s' l'
  end.

(** ** class OGIAgent *)

Module OGIAgent.

Record LedgerEntry := mkLedgerEntry {
  le_epoch : nat;
  le_timestamp : string;
  le_change_type : string;
  le_validation : bool;
  le_hash : Z
}.

Record t := mk {
  agent_id : string;
  scenario : string;
  epoch : nat;
  development_history : list CycleResult;
  reasoning_frameworks : gmap string Q;
  ledger : list LedgerEntry
}.

Definition __init__ (agent_id scenario : string) : t :=
  {| agent_id := agent_id; scenario := scenario; epoch := 0%nat;
     development_history := []; reasoning_frameworks := ∅; ledger := [] |}.

Definition set_frameworks (self : t) (fw : gmap string Q) : t :=
  {| agent_id := agent_id self; scenario := scenario self; epoch := epoch self;
     development_history := development_history self;
     reasoning_frameworks := fw; ledger := ledger self |}.

Definition set_ledger (self : t) (l : list LedgerEntry) : t :=
  {| agent_id := agent_id self; scenario := scenario self; epoch := epoch self;
     development_history := development_history self;
     reasoning_frameworks := reasoning_frameworks self; ledger := l |}.

Definition set_epoch (self : t) (e : nat) : t :=
  {| agent_id := agent_id self; scenario := scenario self; epoch := e;
     development_history := development_history self;
     reasoning_frameworks := reasoning_frameworks self; ledger := ledger self |}.

(** [d[k]] on a key the caller has just made sure is present. *)
Definition getitem (d : gmap string Q) (k : string) : Q := default 0 (d !! k).

Section Methods.
Context {World : Type} `{Host World}.

Definition generate_hypothesis (self : t) : M World HypothesisRec :=
  let* tgt := random_choice ["pattern_recognition"; "causal_inference"; "uncertainty_handling"] in
  let* conf := random_uniform 0.6 0.9 in
  ret {| h_type := "framework_revision";
         h_target := tgt;
         h_proposed_change := "Revision_" +:+ pretty (epoch self);
         h_confidence := conf |}.

Definition test_hypothesis (self : t) (hyp : HypothesisRec) : M World CycleResult :=
  let* sr := random_uniform 0.7 0.95 in
  let* insights := random_randint 3 7 in
  ret {| hypothesis := hyp;
         success_rate := sr;
         validation_passed := Qltb 0.75 sr;
         insights_gained := insights |}.

Definition integrate_learning (self : t) (result : CycleResult) : t :=
  if validation_passed result then
    let framework_key := h_target (hypothesis result) in
    let fw := reasoning_frameworks self in
    let fw1 := if decide (framework_key ∈ dom fw) then fw
               else <[framework_key := 0.5]> fw in
    let fw2 := <[framework_key := getitem fw1 framework_key + 0.02 * success_rate result]> fw1 in
    let fw3 := <[framework_key := py_min 0.95 (getitem fw2 framework_key)]> fw2 in
    set_frameworks self fw3
  else self.

Definition record_to_ledger (self : t) (result : CycleResult) : M World t :=
  let* now := datetime_now_isoformat in
  let entry := {| le_epoch := epoch self;
                  le_timestamp := now;
                  le_change_type := h_type (hypothesis result);
                  le_validation := validation_passed result;
                  le_hash := py_hash (py_str result) |} in
  ret (set_ledger self (ledger self ++ [entry])).

(** Returns the cycle result together with the agent after the call. *)
Definition develop_epoch (self : t) : M World (CycleResult * t) :=
  let* hyp := generate_hypothesis self in
  let* result := test_hypothesis self hyp in
  let self1 := integrate_learning self result in
  let* self2 := record_to_ledger self1 result in
  ret (result, set_epoch self2 (epoch self2 + 1)%nat).

(** [k] calls of [develop_epoch] in a row on the same agent. *)
Fixpoint develop_epochs (k : nat) (self : t) : M World t :=
  match k with
  | O => ret self
  | S k' => let* out := develop_epoch self in develop_epochs k' (snd out)
  end.

Definition calculate_cci (self : t) : M World Q :=
  if (epoch self =? 0)%nat then ret 0.65
  else
    let base_cci := 0.65 + 0.02 * math_log (inject_Z (Z.of_nat (epoch self + 1))) in
    let* noise := random_gauss 0 0.02 in
    let cci := base_cci + noise in
    ret (py_min 0.95 (py_max 0.60 cci)).

Definition calculate_mutation_drift (self : t) : M World Q :=
  let drift := py_max 0 (0.10 - 0.005 * inject_Z (Z.of_nat (epoch self))) in
  let* noise := random_gauss 0 0.01 in
  ret (drift + noise).

End Methods.
End OGIAgent.

(** ** class FederatedAgent *)

Module FederatedAgent.

Record LocalUpdate := mkLocalUpdate {
  model_updates : string;
  local_loss : Q;
  samples_trained : Z
}.

Record ServerResponse := mkServerResponse {
  sr_global_model_version : nat;
  aggregated_weights : string;
  communication_mb : Q
}.

Record t := mk {
  agent_id : string;
  scenario : string;
  epoch : nat;
  global_model_version : nat
}.

Definition __init__ (agent_id scenario : string) : t :=
  {| agent_id := agent_id; scenario := scenario; epoch := 0%nat;
     global_model_version := 0%nat |}.

(** [local_update.get('communication_mb', d)]: the dictionary built by
    [local_training] has the keys [model_updates], [local_loss] and
    [samples_trained] only, so the lookup yields the default. *)
Definition get_communication_mb (u : LocalUpdate) (d : Q) : Q := d.

Section Methods.
Context {World : Type} `{Host World}.

Definition local_training (self : t) : M World LocalUpdate :=
  let* loss := random_uniform 0.1 0.5 in
  let* samples := random_randint 100 1000 in
  ret {| model_updates := "weights_v" +:+ pretty (epoch self);
         local_loss := loss;
         samples_trained := samples |}.

Definition upload_to_server (self : t) (local_update : LocalUpdate) : M World ServerResponse :=
  let* communication_cost := random_gauss 45 8 in
  ret {| sr_global_model_version := (global_model_version self + 1)%nat;
         aggregated_weights := "global_v" +:+ pretty (epoch self);
         communication_mb := communication_cost |}.

Definition download_global_model (self : t) (server_response : ServerResponse) : t :=
  {| agent_id := agent_id self; scenario := scenario self; epoch := epoch self;
     global_model_version := sr_global_model_version server_response |}.

Definition train_epoch (self : t) : M World (LocalUpdate * t) :=
  let* local_update := local_training self in
  let* server_response := upload_to_server self local_update in
  let self1 := download_global_model self server_response in
  ret (local_update,
       {| agent_id := agent_id self1; scenario := scenario self1;
          epoch := (epoch self1 + 1)%nat;
          global_model_version := global_model_version self1 |}).

Definition calculate_cci (self : t) : M World Q :=
  let* base_cci := random_gauss 0.55 0.03 in
  ret (py_max 0.40 (py_min 0.70 base_cci)).

Definition calculate_mutation_drift (self : t) : M World Q :=
  random_gauss 0.25 0.05.

End Methods.
End FederatedAgent.

(** ** class SimulationRunner *)

Module SimulationRunner.

Record MetricRecord := mkMetricRecord {
  mr_scenario : string;
  mr_epoch : nat;
  cci_ogi : Q;
  cci_flower : Q;
  mutation_drift_ogi : Q;
  mutation_drift_flower : Q;
  comm_ogi_mb : Q;
  comm_flower_mb : Q;
  mr_ogi_agents : nat;
  mr_fl_agents : nat
}.

Record t := mk {
  scenarios : list string;
  num_agents : Z;
  num_epochs : Z;
  results : list MetricRecord;
  logs : list string
}.

(** The constructor takes no argument and contains no [raise]. *)
Definition __init__ : t :=
  {| scenarios := ["medical_diagnosis"; "disaster_response"; "autonomous_labs"];
     num_agents := 5;
     num_epochs := 20;
     results := [];
     logs := [] |}.

(** [sim.scenarios = l] on a runner. *)
Definition set_scenarios (self : t) (l : list string) : t :=
  {| scenarios := l; num_agents := num_agents self; num_epochs := num_epochs self;
     results := results self; logs := logs self |}.

Definition append_result (self : t) (r : MetricRecord) : t :=
  {| scenarios := scenarios self; num_agents := num_agents self;
     num_epochs := num_epochs self; results := results self ++ [r];
     logs := logs self |}.

Definition extend_logs (self : t) (l : list string) : t :=
  {| scenarios := scenarios self; num_agents := num_agents self;
     num_epochs := num_epochs self; results := results self;
     logs := logs self ++ l |}.

(** The state of the loop of [run_scenario]: the two agent lists, which
    the loop body mutates in place, and the runner itself. *)
Record LoopState := mkLoopState {
  ogi_agents : list OGIAgent.t;
  fl_agents : list FederatedAgent.t;
  runner : t
}.

Section Methods.
Context {World : Type} `{Host World}.

(** The agents are handed over by reference; the list returned with the
    cost is the list as the call leaves it. *)
Definition ogi_supervised_sync (self : t) (agents : list OGIAgent.t)
  : M World (Q * list OGIAgent.t) :=
  let total_insights :=
    fold_right Nat.add 0%nat (map (fun agent => size (OGIAgent.reasoning_frameworks agent)) agents) in
  let* comm_cost := random_gauss 15 3 in
  ret (comm_cost, agents).

Definition run_epoch (scenario : string) (st : LoopState) (epoch : nat) : M World LoopState :=
  let self := runner st in
  let* ogi_out := mapM OGIAgent.develop_epoch (ogi_agents st) in
  let ogi_results := map fst ogi_out in
  let ogi_agents1 := map snd ogi_out in
  let* fl_out := mapM FederatedAgent.train_epoch (fl_agents st) in
  let fl_results := map fst fl_out in
  let fl_agents1 := map snd fl_out in
  let fl_comm_total :=
    fold_left (fun acc result => acc + FederatedAgent.get_communication_mb result 45) fl_results 0 in
  let* synced :=
    (if (epoch mod 5 =? 0)%nat
     then ogi_supervised_sync self ogi_agents1
     else ret (0, ogi_agents1)) in
  let ogi_comm := fst synced in
  let ogi_agents2 := snd synced in
  let* ogi_ccis := mapM OGIAgent.calculate_cci ogi_agents2 in
  let* fl_ccis := mapM FederatedAgent.calculate_cci fl_agents1 in
  let* ogi_drifts := mapM OGIAgent.calculate_mutation_drift ogi_agents2 in
  let* fl_drifts := mapM FederatedAgent.calculate_mutation_drift fl_agents1 in
  let self1 := append_result self
    {| mr_scenario := scenario;
       mr_epoch := epoch;
       cci_ogi := np_mean ogi_ccis;
       cci_flower := np_mean fl_ccis;
       mutation_drift_ogi := np_mean ogi_drifts;
       mutation_drift_flower := np_mean fl_drifts;
       comm_ogi_mb := ogi_comm;
       comm_flower_mb := fl_comm_total;
       mr_ogi_agents := length ogi_agents2;
       mr_fl_agents := length fl_agents1 |} in
  let self2 := extend_logs self1
    [ "Epoch " +:+ fmt_02d epoch +:+ " [" +:+ scenario +:+ "] Flower AI Node: Uploading weights to server...";
      "Epoch " +:+ fmt_02d epoch +:+ " [" +:+ scenario +:+ "] OGI Node: Running self-revision cycle — local ethics gate passed." ] in
  let self3 :=
    if (epoch mod 5 =? 0)%nat then
      let coherence_gain := (12 + epoch)%nat in
      let supervisor_msg :=
        "Supervisor: OGI coherence +" +:+ pretty coherence_gain +:+ "%; Flower convergence lagging." in
      extend_logs self2 ["Epoch " +:+ fmt_02d epoch +:+ " [" +:+ scenario +:+ "] " +:+ supervisor_msg]
    else self2 in
  ret {| ogi_agents := ogi_agents2; fl_agents := fl_agents1; runner := self3 |}.

Definition run_scenario (self : t) (scenario : string) : M World t :=
  let ogi := map (fun i => OGIAgent.__init__ ("ogi_" +:+ pretty i) scenario) (py_range (num_agents self)) in
  let fl := map (fun i => FederatedAgent.__init__ ("fl_" +:+ pretty i) scenario) (py_range (num_agents self)) in
  let* st := foldM (run_epoch scenario)
                   {| ogi_agents := ogi; fl_agents := fl; runner := self |}
                   (py_range (num_epochs self)) in
  ret (runner st).

(** The loop over the scenarios; writing the files and drawing the charts
    ([save_results], [generate_analysis]) is left to the collaborators. *)
Definition run_full_simulation (self : t) : M World t :=
  foldM run_scenario self (scenarios self).

End Methods.
End SimulationRunner.

(** ** The synchronization step as the specification words it

    For agent [i] of the pre-sync snapshot and a framework [f] of its
    mapping: the pre-sync value plus [0.02 * (B_pre - A_pre)] summed over
    the peers [B] whose mapping has [f], clamped to at most 0.95. *)

Definition peer_terms (snapshot : list (gmap string Q)) (i : nat) (f : string) (a_pre : Q)
  : list Q :=
  omap (fun jb : nat * gmap string Q =>
          if decide (fst jb = i) then None
          else match snd jb !! f with
               | Some b_pre => Some (0.02 * (b_pre - a_pre))
               | None => None
               end)
       (imap (fun j b => (j, b)) snapshot).

Definition claimed_post_sync (snapshot : list (gmap string Q)) (i : nat) (f : string)
  : option Q :=
  match snapshot !! i with
  | Some a =>
      match a !! f with
      | Some a_pre =>
          Some (py_min 0.95 (a_pre + fold_right Qplus 0 (peer_terms snapshot i f a_pre)))
      | None => None
      end
  | None => None
  end.

(** ** A deterministic host, to run the model on concrete inputs

    The world is a counter; every draw is computed from it and advances
    it, the clock reads it. *)

Module CounterHost.

Definition step (w : nat) (m : nat) : Q := inject_Z (Z.of_nat (w mod m)).

#[export] Instance host : Host nat := {
  random_choice l w := (nth (w mod length l) l "", S w);
  random_uniform a b w := (Qred (a + (b - a) * (step w 7 / 7)), S w);
  random_randint a b w := ((a + Z.of_nat w mod (b - a + 1))%Z, S w);
  random_gauss mu sigma w := (Qred (mu + sigma * ((step w 5 - 2) / 2)), S w);
  datetime_now_isoformat w := ("2025-01-01T00:00:" +:+ fmt_02d (w mod 60), w);
  math_log x := Qred (2 * (x - 1) / (x + 1));
  py_str r := h_proposed_change (hypothesis r);
  py_hash s := Z.of_nat (String.length s)
}.

End CounterHost.

(** The counter host with every Gaussian draw five standard deviations
    below the mean: a sample of mean 15 and deviation 3 is then 0. *)
Module FiveSigmaHost.

Definition host : Host nat :=
  {| random_choice := @random_choice nat CounterHost.host;
     random_uniform := @random_uniform nat CounterHost.host;
     random_randint := @random_randint nat CounterHost.host;
     random_gauss := fun mu sigma w => (Qred (mu - 5 * sigma), S w);
     datetime_now_isoformat := @datetime_now_isoformat nat CounterHost.host;
     math_log := @math_log nat CounterHost.host;
     py_str := @py_str nat CounterHost.host;
     py_hash := @py_hash nat CounterHost.host |}.

End FiveSigmaHost.

(** A fresh agent after one cycle on the counter host. *)
Definition agent_a : OGIAgent.t :=
  fst (OGIAgent.develop_epochs (H := CounterHost.host) 1
         (OGIAgent.__init__ "ogi_0" "medical_diagnosis") 0%nat).

(** The five agents as the first synchronization of a run on the counter
    host meets them: each after its first cycle, developed one after the
    other from world 0.  The agents 1 and 4 both hold [causal_inference],
    with different strengths.  The Synchronizer is called in world 35,
    after the 20 draws of these cycles and the 15 of the federated ones. *)
Definition first_sync_agents : list OGIAgent.t :=
  map snd (fst (mapM (OGIAgent.develop_epoch (H := CounterHost.host))
                  (map (fun i => OGIAgent.__init__ ("ogi_" +:+ pretty i) "medical_diagnosis")
                       (py_range 5))
                  0%nat)).

Definition first_sync_world : nat := 35.

(** A fresh agent after 20 cycles on the counter host, and the world then. *)
Definition agent_20 : OGIAgent.t * nat :=
  OGIAgent.develop_epochs (H := CounterHost.host) 20
    (OGIAgent.__init__ "ogi_0" "medical_diagnosis") 0%nat.

(** The runner on two scenarios. *)
Definition runner_ab : SimulationRunner.t :=
  SimulationRunner.set_scenarios SimulationRunner.__init__ ["A"; "B"].

(** ** Predicates the statements use *)


(** Every strength lies in [[0.5, 0.95]]. *)
Definition bounded (fw : gmap string Q) : Prop :=
  map_Forall (fun _ v => 0.5 <= v <= 0.95) fw.

(** [fw'] keeps every entry of [fw], with a strength at least as high. *)
Definition grows (fw fw' : gmap string Q) : Prop :=
  map_Forall (fun f v => exists v', fw' !! f = Some v' /\ v <= v') fw.

(** The same agent under another scenario tag. *)
Definition ogi_with_scenario (s : string) (a : OGIAgent.t) : OGIAgent.t :=
  {| OGIAgent.agent_id := OGIAgent.agent_id a; OGIAgent.scenario := s;
     OGIAgent.epoch := OGIAgent.epoch a;
     OGIAgent.development_history := OGIAgent.development_history a;
     OGIAgent.reasoning_frameworks := OGIAgent.reasoning_frameworks a;
     OGIAgent.ledger := OGIAgent.ledger a |}.

Definition fl_with_scenario (s : string) (a : FederatedAgent.t) : FederatedAgent.t :=
  {| FederatedAgent.agent_id := FederatedAgent.agent_id a; FederatedAgent.scenario := s;
     FederatedAgent.epoch := FederatedAgent.epoch a;
     FederatedAgent.global_model_version := FederatedAgent.global_model_version a |}.

(** Two loop states whose agents differ in the scenario tag only. *)
Definition same_agents (s : string) (st1 st2 : SimulationRunner.LoopState) : Prop :=
  SimulationRunner.ogi_agents st2 = map (ogi_with_scenario s) (SimulationRunner.ogi_agents st1) /\
  SimulationRunner.fl_agents st2 = map (fl_with_scenario s) (SimulationRunner.fl_agents st1).

(** A metric record without its scenario name. *)
Definition numbers (rec : SimulationRunner.MetricRecord)
  : nat * (Q * Q * Q * Q) * (Q * Q) * (nat * nat) :=
  (SimulationRunner.mr_epoch rec,
   (SimulationRunner.cci_ogi rec, SimulationRunner.cci_flower rec,
    SimulationRunner.mutation_drift_ogi rec, SimulationRunner.mutation_drift_flower rec),
   (SimulationRunner.comm_ogi_mb rec, SimulationRunner.comm_flower_mb rec),
   (SimulationRunner.mr_ogi_agents rec, SimulationRunner.mr_fl_agents rec)).

(** ** examples/medical_diagnosis.py

    [MedicalDiagnosticAgent] extends [OGIAgent]; its own state is the
    hospital identifier, the population label, the diagnostic frameworks and
    the case history.  The dictionaries of a patient case have the keys
    that [generate_synthetic_cases] gives them ([age] and [gender] in the
    demographics, [diagnosis] and [certainty] in the outcome), so the
    defaults of their [.get] calls are never reached.  A case gets its
    [outcome], [hypothesis] and [validation] entries together or not at
    all. *)

Module MedicalDiagnosticAgent.

Record Demographics := mkDemographics {
  age : Z;
  gender : string
}.

Record Outcome := mkOutcome {
  diagnosis : string;
  certainty : Q
}.

Record DiagnosticHypothesis := mkDiagnosticHypothesis {
  primary_diagnosis : string;
  dh_confidence : Q;
  supporting_symptoms : list string;
  risk_factors : list string;
  framework_used : string
}.

Record ValidationResult := mkValidationResult {
  correct : bool;
  confidence_error : Q;
  learning_value : Q;
  framework_effectiveness : Q
}.

Record Evaluation := mkEvaluation {
  ev_outcome : Outcome;
  ev_hypothesis : DiagnosticHypothesis;
  ev_validation : ValidationResult
}.

Record Case := mkCase {
  case_id : string;
  symptoms : list string;
  demographics : Demographics;
  hospital : Z;
  case_epoch : nat;
  evaluation : option Evaluation
}.

Record Pattern := mkPattern {
  success_count : nat;
  common_symptoms : list string;
  pattern_risk_factors : list string
}.

Record ConfidenceMetrics := mkConfidenceMetrics {
  overall_accuracy : Q;
  total_cases : nat;
  framework_maturity : option Q
}.

Record Insight := mkInsight {
  ins_hospital_id : Z;
  ins_diagnostic_frameworks : gmap string Q;
  cases_processed : nat;
  population_characteristics : string;
  successful_patterns : gmap string Pattern;
  confidence_metrics : ConfidenceMetrics
}.

Record t := mk {
  base : OGIAgent.t;
  hospital_id : Z;
  patient_population : string;
  diagnostic_frameworks : gmap string Q;
  case_history : list Case
}.

Definition __init__ (hospital_id : Z) (patient_population : string) : t :=
  {| base := OGIAgent.__init__ ("hospital_" +:+ pretty hospital_id) "medical_diagnosis";
     hospital_id := hospital_id;
     patient_population := patient_population;
     diagnostic_frameworks :=
       <["symptom_pattern_recognition" := 0.6]>
       (<["risk_factor_assessment" := 0.55]>
       (<["differential_diagnosis" := 0.5]>
       (<["rare_disease_detection" := 0.4]>
       (<["treatment_response_prediction" := 0.45]> ∅))));
     case_history := [] |}.

Definition set_diagnostic_frameworks (self : t) (fw : gmap string Q) : t :=
  {| base := base self; hospital_id := hospital_id self;
     patient_population := patient_population self;
     diagnostic_frameworks := fw; case_history := case_history self |}.

(** [generate_diagnostic_hypothesis] reads the symptoms and the
    demographics of the case.  The strength of
    [symptom_pattern_recognition] is there from [__init__] on. *)
Definition generate_diagnostic_hypothesis (self : t)
    (symptoms : list string) (demographics : Demographics) : DiagnosticHypothesis :=
  let confidence := OGIAgent.getitem (diagnostic_frameworks self) "symptom_pattern_recognition" in
  if bool_decide ("chest_pain" ∈ symptoms) && bool_decide ("shortness_of_breath" ∈ symptoms) then
    if (60 <? age demographics)%Z then
      {| primary_diagnosis := "cardiac_event";
         dh_confidence := confidence * 0.9;
         supporting_symptoms := ["chest_pain"; "shortness_of_breath"];
         risk_factors := ["age"];
         framework_used := "symptom_pattern_recognition" |}
    else
      {| primary_diagnosis := "anxiety_disorder";
         dh_confidence := confidence * 0.7;
         supporting_symptoms := ["chest_pain"; "shortness_of_breath"];
         risk_factors := [];
         framework_used := "symptom_pattern_recognition" |}
  else
    {| primary_diagnosis := "requires_further_investigation";
       dh_confidence := confidence * 0.5;
       supporting_symptoms := symptoms;
       risk_factors := ["age"; "gender"];
       framework_used := "differential_diagnosis" |}.

Definition validate_diagnosis (self : t) (hyp : DiagnosticHypothesis) (actual_outcome : Outcome)
  : ValidationResult :=
  let correct := bool_decide (primary_diagnosis hyp = diagnosis actual_outcome) in
  let confidence_accuracy := Qabs (dh_confidence hyp - certainty actual_outcome) in
  {| correct := correct;
     confidence_error := confidence_accuracy;
     learning_value := if correct then 0.9 else 0.3;
     framework_effectiveness := if correct then dh_confidence hyp else 0.2 |}.

(** [validation_result.get('framework_used', d)]: the dictionary built by
    [validate_diagnosis] has the keys [correct], [confidence_error],
    [learning_value] and [framework_effectiveness] only, so the lookup
    yields the default. *)
Definition get_framework_used (validation_result : ValidationResult) (d : string) : string := d.

Definition integrate_diagnostic_learning (self : t) (validation_result : ValidationResult) : t :=
  if correct validation_result then
    let framework := get_framework_used validation_result "general" in
    if decide (framework ∈ dom (diagnostic_frameworks self)) then
      let improvement := 0.05 * learning_value validation_result in
      set_diagnostic_frameworks self
        (<[framework := py_min 0.95 (OGIAgent.getitem (diagnostic_frameworks self) framework
                                     + improvement)]> (diagnostic_frameworks self))
    else self
  else
    set_diagnostic_frameworks self
      ((fun v => let adjustment := - 0.01 * (1 - confidence_error validation_result) in
                 py_max 0.1 (v + adjustment)) <$> diagnostic_frameworks self).

(** Returns the hypothesis together with the agent after the call. *)
Definition process_patient_case (self : t) (symptoms : list string)
    (demographics : Demographics) (outcome : option Outcome) : DiagnosticHypothesis * t :=
  let case_id := "case_" +:+ pretty (length (case_history self)) in
  let hyp := generate_diagnostic_hypothesis self symptoms demographics in
  match outcome with
  | Some o =>
      let result := validate_diagnosis self hyp o in
      let self1 := integrate_diagnostic_learning self result in
      let case := {| case_id := case_id; symptoms := symptoms; demographics := demographics;
                     hospital := hospital_id self; case_epoch := OGIAgent.epoch (base self);
                     evaluation := Some {| ev_outcome := o; ev_hypothesis := hyp;
                                           ev_validation := result |} |} in
      (hyp, {| base := base self1; hospital_id := hospital_id self1;
               patient_population := patient_population self1;
               diagnostic_frameworks := diagnostic_frameworks self1;
               case_history := case_history self1 ++ [case] |})
  | None =>
      let case := {| case_id := case_id; symptoms := symptoms; demographics := demographics;
                     hospital := hospital_id self; case_epoch := OGIAgent.epoch (base self);
                     evaluation := None |} in
      (hyp, {| base := base self; hospital_id := hospital_id self;
               patient_population := patient_population self;
               diagnostic_frameworks := diagnostic_frameworks self;
               case_history := case_history self ++ [case] |})
  end.

(** [case.get('validation', {}).get('correct', False)]. *)
Definition case_correct (case : Case) : bool :=
  match evaluation case with
  | Some ev => correct (ev_validation ev)
  | None => false
  end.

Definition get_successful_patterns (self : t) : gmap string Pattern :=
  fold_left
    (fun patterns case =>
       match evaluation case with
       | Some ev =>
           if correct (ev_validation ev) then
             let pattern_key := primary_diagnosis (ev_hypothesis ev) in
             let old := default {| success_count := 0; common_symptoms := [];
                                   pattern_risk_factors := [] |} (patterns !! pattern_key) in
             <[pattern_key :=
                 {| success_count := S (success_count old);
                    common_symptoms := common_symptoms old ++ supporting_symptoms (ev_hypothesis ev);
                    pattern_risk_factors := pattern_risk_factors old ++ risk_factors (ev_hypothesis ev) |}]>
               patterns
           else patterns
       | None => patterns
       end)
    (case_history self) ∅.

(** [sum(d.values()) / len(d)] (Python raises ZeroDivisionError on an empty
    dictionary, where this quotient is 0). *)
Definition mean_strength (d : gmap string Q) : Q :=
  map_fold (fun _ v acc => acc + v) 0 d / inject_Z (Z.of_nat (size d)).

Definition calculate_diagnostic_confidence (self : t) : ConfidenceMetrics :=
  match case_history self with
  | [] => {| overall_accuracy := 0.5; total_cases := 0; framework_maturity := None |}
  | _ =>
      let correct_cases := length (filter (fun case => case_correct case = true) (case_history self)) in
      {| overall_accuracy := inject_Z (Z.of_nat correct_cases)
                             / inject_Z (Z.of_nat (length (case_history self)));
         total_cases := length (case_history self);
         framework_maturity := Some (mean_strength (diagnostic_frameworks self)) |}
  end.

Definition extract_diagnostic_insights (self : t) : Insight :=
  {| ins_hospital_id := hospital_id self;
     ins_diagnostic_frameworks := diagnostic_frameworks self;
     cases_processed := length (case_history self);
     population_characteristics := patient_population self;
     successful_patterns := get_successful_patterns self;
     confidence_metrics := calculate_diagnostic_confidence self |}.

(** The inherited [develop_epoch], which works on the fields of the base
    class. *)
Definition develop_epoch {World : Type} `{Host World} (self : t) : M World (CycleResult * t) :=
  let* out := OGIAgent.develop_epoch (base self) in
  ret (fst out,
       {| base := snd out; hospital_id := hospital_id self;
          patient_population := patient_population self;
          diagnostic_frameworks := diagnostic_frameworks self;
          case_history := case_history self |}).

End MedicalDiagnosticAgent.

(** One step toward a peer's strength: [min(0.95, own + 0.02 * (value - own))]. *)
Definition nudge (own value : Q) : Q := py_min 0.95 (own + 0.02 * (value - own)).

(** The innermost loop of [share_medical_knowledge]: the entries of one
    insight, applied to the frameworks of one hospital. *)
Definition learn_from (insight_frameworks own : gmap string Q) : gmap string Q :=
  map_fold
    (fun framework value own =>
       if decide (framework ∈ dom own) then
         let improvement := 0.02 * (value - OGIAgent.getitem own framework) in
         <[framework := py_min 0.95 (OGIAgent.getitem own framework + improvement)]> own
       else own)
    own insight_frameworks.

(** The loop over the insights, for one hospital. *)
Definition learn_from_insights (insights : list MedicalDiagnosticAgent.Insight)
    (hospital : MedicalDiagnosticAgent.t) : MedicalDiagnosticAgent.t :=
  fold_left
    (fun hospital insight =>
       if decide (MedicalDiagnosticAgent.ins_hospital_id insight
                  <> MedicalDiagnosticAgent.hospital_id hospital) then
         MedicalDiagnosticAgent.set_diagnostic_frameworks hospital
           (learn_from (MedicalDiagnosticAgent.ins_diagnostic_frameworks insight)
                       (MedicalDiagnosticAgent.diagnostic_frameworks hospital))
       else hospital)
    insights hospital.

(** The insights are extracted from all hospitals first (each holds a copy
    of the frameworks), then every hospital learns from them. *)
Definition share_medical_knowledge (hospitals : list MedicalDiagnosticAgent.t)
  : list MedicalDiagnosticAgent.t :=
  let insights := map MedicalDiagnosticAgent.extract_diagnostic_insights hospitals in
  map (learn_from_insights insights) hospitals.

Record SyntheticCase := mkSyntheticCase {
  sc_symptoms : list string;
  sc_demographics : MedicalDiagnosticAgent.Demographics;
  sc_outcome : MedicalDiagnosticAgent.Outcome
}.

Definition generate_synthetic_cases : list SyntheticCase :=
  [ {| sc_symptoms := ["chest_pain"; "shortness_of_breath"];
       sc_demographics := MedicalDiagnosticAgent.mkDemographics 65 "M";
       sc_outcome := MedicalDiagnosticAgent.mkOutcome "cardiac_event" 0.9 |};
    {| sc_symptoms := ["chest_pain"; "shortness_of_breath"; "anxiety"];
       sc_demographics := MedicalDiagnosticAgent.mkDemographics 25 "F";
       sc_outcome := MedicalDiagnosticAgent.mkOutcome "anxiety_disorder" 0.8 |};
    {| sc_symptoms := ["fever"; "cough"; "fatigue"];
       sc_demographics := MedicalDiagnosticAgent.mkDemographics 35 "M";
       sc_outcome := MedicalDiagnosticAgent.mkOutcome "viral_infection" 0.7 |};
    {| sc_symptoms := ["headache"; "vision_changes"; "nausea"];
       sc_demographics := MedicalDiagnosticAgent.mkDemographics 45 "F";
       sc_outcome := MedicalDiagnosticAgent.mkOutcome "migraine" 0.75 |};
    {| sc_symptoms := ["joint_pain"; "stiffness"; "swelling"];
       sc_demographics := MedicalDiagnosticAgent.mkDemographics 55 "F";
       sc_outcome := MedicalDiagnosticAgent.mkOutcome "rheumatoid_arthritis" 0.85 |} ].

(** [random.choice] on the list of synthetic cases. *)
Class CaseChoice (World : Type) := {
  random_choice_case : list SyntheticCase -> World -> SyntheticCase * World
}.

Section MedicalSimulation.
Context {World : Type} `{Host World} `{CaseChoice World}.

(** The loop [for _ in range(num_cases)] of one hospital. *)
Definition process_cases (synthetic_cases : list SyntheticCase)
    (hospital : MedicalDiagnosticAgent.t) (num_cases : Z) : M World MedicalDiagnosticAgent.t :=
  foldM (fun hospital _ =>
           let* case := random_choice_case synthetic_cases in
           ret (snd (MedicalDiagnosticAgent.process_patient_case hospital
                       (sc_symptoms case) (sc_demographics case) (Some (sc_outcome case)))))
        hospital (py_range num_cases).

(** The body of the loop over the hospitals. *)
Definition hospital_epoch (synthetic_cases : list SyntheticCase)
    (hospital : MedicalDiagnosticAgent.t) : M World MedicalDiagnosticAgent.t :=
  let* num_cases := random_randint 2 5 in
  let* hospital1 := process_cases synthetic_cases hospital num_cases in
  let* out := MedicalDiagnosticAgent.develop_epoch hospital1 in
  ret (snd out).

(** The body of the loop over the epochs. *)
Definition simulation_epoch (synthetic_cases : list SyntheticCase)
    (hospitals : list MedicalDiagnosticAgent.t) (epoch : nat)
  : M World (list MedicalDiagnosticAgent.t) :=
  let* hospitals1 := mapM (hospital_epoch synthetic_cases) hospitals in
  if (epoch mod 5 =? 0)%nat && (0 <? epoch)%nat
  then ret (share_medical_knowledge hospitals1)
  else ret hospitals1.

(** The simulation up to its final report, which only prints: the
    hospitals as the 15 epochs leave them. *)
Definition run_medical_diagnosis_simulation : M World (list MedicalDiagnosticAgent.t) :=
  let hospitals :=
    [ MedicalDiagnosticAgent.__init__ 1 "rural_mining_community";
      MedicalDiagnosticAgent.__init__ 2 "urban_elderly";
      MedicalDiagnosticAgent.__init__ 3 "pediatric_specialized";
      MedicalDiagnosticAgent.__init__ 4 "cardiac_center";
      MedicalDiagnosticAgent.__init__ 5 "general_population" ] in
  let synthetic_cases := generate_synthetic_cases in
  foldM (simulation_epoch synthetic_cases) hospitals (py_range 15).

(** The generator's [choice] returns one of the cases it is given. *)
Definition case_choice_in_list : Prop :=
  forall (l : list SyntheticCase) (w : World), l <> [] -> fst (random_choice_case l w) ∈ l.

End MedicalSimulation.

(** ** Views of the hospitals for the statements *)

(** The strengths every hospital starts with. *)
Definition initial_frameworks : gmap string Q :=
  MedicalDiagnosticAgent.diagnostic_frameworks (MedicalDiagnosticAgent.__init__ 0 "").

(** A hospital has the five initial frameworks, each at a strength between
    0.1 and its initial value. *)
Definition within_initial (h : MedicalDiagnosticAgent.t) : Prop :=
  dom (MedicalDiagnosticAgent.diagnostic_frameworks h) = dom initial_frameworks /\
  forall k v v0,
    MedicalDiagnosticAgent.diagnostic_frameworks h !! k = Some v ->
    initial_frameworks !! k = Some v0 ->
    0.1 <= v <= v0.

(** The strengths of framework [k] that the hospital with identifier [id]
    meets when it learns: those of the hospitals with another identifier
    that have [k], in the order of the list. *)
Definition peer_strengths (hospitals : list MedicalDiagnosticAgent.t) (id : Z) (k : string)
  : list Q :=
  omap (fun p => if decide (MedicalDiagnosticAgent.hospital_id p <> id)
                 then MedicalDiagnosticAgent.diagnostic_frameworks p !! k
                 else None)
       hospitals.

(** The counter host's [choice] among the synthetic cases. *)
#[export] Instance counter_case_choice : CaseChoice nat := {
  random_choice_case l w :=
    (nth (w mod length l) l (mkSyntheticCase [] (MedicalDiagnosticAgent.mkDemographics 0 "")
                                             (MedicalDiagnosticAgent.mkOutcome "" 0)), S w)
}.

(** One hospital through one epoch of the simulation: its cases, then its
    development cycle. *)
Definition hospital_step (h h' : MedicalDiagnosticAgent.t) : Prop :=
  MedicalDiagnosticAgent.hospital_id h' = MedicalDiagnosticAgent.hospital_id h /\
  OGIAgent.epoch (MedicalDiagnosticAgent.base h') = S (OGIAgent.epoch (MedicalDiagnosticAgent.base h)) /\
  length (OGIAgent.ledger (MedicalDiagnosticAgent.base h'))
    = S (length (OGIAgent.ledger (MedicalDiagnosticAgent.base h))) /\
  (within_initial h -> within_initial h').

(** ** Drivers and views for the properties of the whole run *)

Section RunViews.
Context {World : Type} `{Host World}.

(** [k] calls of [train_epoch] in a row on the same agent. *)
Fixpoint train_epochs (k : nat) (self : FederatedAgent.t) : M World FederatedAgent.t :=
  match k with
  | O => ret self
  | S k' => let* out := FederatedAgent.train_epoch self in train_epochs k' (snd out)
  end.

(** The agents [run_scenario] creates before its loop. *)
Definition initial_state (self : SimulationRunner.t) (scenario : string)
  : SimulationRunner.LoopState :=
  {| SimulationRunner.ogi_agents :=
       map (fun i => OGIAgent.__init__ ("ogi_" +:+ pretty i) scenario)
           (py_range (SimulationRunner.num_agents self));
     SimulationRunner.fl_agents :=
       map (fun i => FederatedAgent.__init__ ("fl_" +:+ pretty i) scenario)
           (py_range (SimulationRunner.num_agents self));
     SimulationRunner.runner := self |}.

(** The state of the loop of [run_scenario] when it ends. *)
Definition final_state (self : SimulationRunner.t) (scenario : string)
  : M World SimulationRunner.LoopState :=
  foldM (SimulationRunner.run_epoch scenario) (initial_state self scenario)
        (py_range (SimulationRunner.num_epochs self)).

(** [ogi_cycles n a a']: [a'] is [a] after [n] calls of [develop_epoch],
    each made in some world (in a run the calls of one agent are
    interleaved with the draws of the others). *)
Inductive ogi_cycles : nat -> OGIAgent.t -> OGIAgent.t -> Prop :=
  | ogi_cycles_O (a : OGIAgent.t) : ogi_cycles 0 a a
  | ogi_cycles_S (n : nat) (a mid : OGIAgent.t) (w : World) :
      ogi_cycles n a mid ->
      ogi_cycles (S n) a (snd (fst (OGIAgent.develop_epoch mid w))).

Inductive fl_cycles : nat -> FederatedAgent.t -> FederatedAgent.t -> Prop :=
  | fl_cycles_O (a : FederatedAgent.t) : fl_cycles 0 a a
  | fl_cycles_S (n : nat) (a mid : FederatedAgent.t) (w : World) :
      fl_cycles n a mid ->
      fl_cycles (S n) a (snd (fst (FederatedAgent.train_epoch mid w))).

(** The generator's [choice] returns an element of the list it is given. *)
Definition choice_in_list : Prop :=
  forall (l : list string) (w : World), l <> [] -> fst (random_choice l w) ∈ l.

End RunViews.

(** The number of ledger entries whose evaluation passed. *)
Definition validated_entries (l : list OGIAgent.LedgerEntry) : nat :=
  length (filter (fun entry => OGIAgent.le_validation entry = true) l).

(** The three names [generate_hypothesis] chooses from. *)
Definition framework_names : list string :=
  ["pattern_recognition"; "causal_inference"; "uncertainty_handling"].

(** The number of cycle indices below [n] on which the runner synchronizes. *)
Definition sync_count (n : nat) : nat :=
  length (filter (fun e => (e mod 5 = 0)%nat) (seq 0 n)).

(** What a metric record of cycle [e] of scenario [sc] holds when [no] and
    [nf] agents of the two variants take part. *)
Definition record_ok (no nf : nat) (sc : string) (e : nat)
    (rec : SimulationRunner.MetricRecord) : Prop :=
  SimulationRunner.mr_scenario rec = sc /\
  SimulationRunner.mr_epoch rec = e /\
  SimulationRunner.mr_ogi_agents rec = no /\
  SimulationRunner.mr_fl_agents rec = nf /\
  SimulationRunner.comm_flower_mb rec == 45 * inject_Z (Z.of_nat nf) /\
  ((0 < no)%nat -> 0.60 <= SimulationRunner.cci_ogi rec <= 0.95) /\
  ((0 < nf)%nat -> 0.40 <= SimulationRunner.cci_flower rec <= 0.70).

(** The scenario names and the cycle indices of the records of a whole
    run, in the order of [scenarios], [n] records per scenario. *)
Definition scenario_column (scenarios : list string) (n : nat) : list string :=
  flat_map (fun s => replicate n s) scenarios.

Definition epoch_column (scenarios : list string) (n : nat) : list nat :=
  flat_map (fun _ => seq 0 n) scenarios.

(** Three hospitals for concrete checks: two as constructed, and a third
    after one wrongly diagnosed case (the third synthetic case). *)
Definition hospital_1 : MedicalDiagnosticAgent.t :=
  MedicalDiagnosticAgent.__init__ 1 "rural_mining_community".

Definition hospital_2 : MedicalDiagnosticAgent.t :=
  MedicalDiagnosticAgent.__init__ 2 "urban_elderly".

Definition hospital_3 : MedicalDiagnosticAgent.t :=
  snd (MedicalDiagnosticAgent.process_patient_case
         (MedicalDiagnosticAgent.__init__ 3 "pediatric_specialized")
         ["fever"; "cough"; "fatigue"]
         (MedicalDiagnosticAgent.mkDemographics 35 "M")
         (Some (MedicalDiagnosticAgent.mkOutcome "viral_infection" 0.7))).

(** * Properties *)

(** ** Comparisons and clamps *)

Lemma Qltb_lt (x y : Q) : Qltb x y = true <-> x < y.
Proof.
  unfold Qltb. rewrite Qlt_alt. destruct (x ?= y); split; congruence.
Qed.

Lemma Qltb_ge (x y : Q) : Qltb x y = false <-> y <= x.
Proof.
  rewrite <- not_true_iff_false, Qltb_lt. split.
  - apply Qnot_lt_le.
  - apply Qle_not_lt.
Qed.

Lemma py_min_cases (a b : Q) :
  (b < a /\ py_min a b = b) \/ (a <= b /\ py_min a b = a).
Proof.
  unfold py_min. destruct (Qltb b a) eqn:E.
  - left. split; [by apply Qltb_lt | done].
  - right. split; [by apply Qltb_ge | done].
Qed.

Lemma py_max_cases (a b : Q) :
  (a < b /\ py_max a b = b) \/ (b <= a /\ py_max a b = a).
Proof.
  unfold py_max. destruct (Qltb a b) eqn:E.
  - left. split; [by apply Qltb_lt | done].
  - right. split; [by apply Qltb_ge | done].
Qed.

Lemma py_min_Qmin (a b : Q) : py_min a b == Qmin a b.
Proof.
  destruct (py_min_cases a b) as [[Hlt ->]|[Hle ->]].
  - symmetry. apply Q.min_r. by apply Qlt_le_weak.
  - symmetry. by apply Q.min_l.
Qed.

Lemma py_max_Qmax (a b : Q) : py_max a b == Qmax a b.
Proof.
  destruct (py_max_cases a b) as [[Hlt ->]|[Hle ->]].
  - symmetry. apply Q.max_r. by apply Qlt_le_weak.
  - symmetry. by apply Q.max_l.
Qed.

Lemma py_min_le_l (a b : Q) : py_min a b <= a.
Proof. destruct (py_min_cases a b) as [[? ->]|[? ->]]; lra. Qed.

Lemma py_min_glb (c a b : Q) : c <= a -> c <= b -> c <= py_min a b.
Proof. destruct (py_min_cases a b) as [[? ->]|[? ->]]; lra. Qed.

Lemma py_max_ge_l (a b : Q) : a <= py_max a b.
Proof. destruct (py_max_cases a b) as [[? ->]|[? ->]]; lra. Qed.


(** Steps through the binds of a computation run on a world. *)
Ltac step_binds :=
  unfold bind, ret in *;
  repeat match goal with
         | |- context [let (_, _) := ?c in _] =>
             lazymatch c with
             | context [let (_, _) := _ in _] => fail
             | _ => let E := fresh "E" in destruct c eqn:E
             end
         end.

Ltac run_binds := step_binds; simpl in *.

Section AgentFacts.
Context {World : Type} `{Host World}.
Import OGIAgent.

(** The three writes of [integrate_learning] amount to one. *)
Lemma integrate_learning_frameworks (self : t) (result : CycleResult) :
  reasoning_frameworks (integrate_learning self result) =
  if validation_passed result then
    <[h_target (hypothesis result) :=
        py_min 0.95 (default 0.5 (reasoning_frameworks self !! h_target (hypothesis result))
                     + 0.02 * success_rate result)]> (reasoning_frameworks self)
  else reasoning_frameworks self.
Proof.
  unfold integrate_learning. destruct (validation_passed result); [|done].
  simpl. set (k := h_target (hypothesis result)). set (fw := reasoning_frameworks self).
  destruct (decide (k ∈ dom fw)) as [Hin|Hout].
  - apply elem_of_dom in Hin as [v Hv].
    unfold getitem. rewrite !lookup_insert_eq, Hv. simpl.
    by rewrite insert_insert_eq.
  - apply not_elem_of_dom in Hout.
    unfold getitem. rewrite !lookup_insert_eq, Hout. simpl.
    by rewrite !insert_insert_eq.
Qed.

Lemma integrate_learning_rest (self : t) (result : CycleResult) :
  agent_id (integrate_learning self result) = agent_id self /\
  scenario (integrate_learning self result) = scenario self /\
  epoch (integrate_learning self result) = epoch self /\
  development_history (integrate_learning self result) = development_history self /\
  ledger (integrate_learning self result) = ledger self.
Proof. unfold integrate_learning. by destruct (validation_passed result). Qed.

(** One call of [develop_epoch], field by field. *)
Lemma develop_epoch_fields (self : t) (w : World) :
  let out := develop_epoch self w in
  let result := fst (fst out) in
  let self' := snd (fst out) in
  validation_passed result = Qltb 0.75 (success_rate result) /\
  agent_id self' = agent_id self /\
  scenario self' = scenario self /\
  epoch self' = S (epoch self) /\
  reasoning_frameworks self' = reasoning_frameworks (integrate_learning self result) /\
  exists entry, ledger self' = ledger self ++ [entry] /\ le_epoch entry = epoch self
                /\ le_validation entry = validation_passed result.
Proof.
  unfold develop_epoch, generate_hypothesis, test_hypothesis, record_to_ledger.
  run_binds.
  match goal with |- context [integrate_learning self ?r] =>
    destruct (integrate_learning_rest self r) as (-> & -> & -> & _ & ->) end.
  repeat split; try done; try lia.
  eexists. repeat split; done.
Qed.

(** The mapping after one call, in terms of the mapping before. *)
Lemma develop_epoch_frameworks (self : t) (w : World) :
  let out := develop_epoch self w in
  let result := fst (fst out) in
  reasoning_frameworks (snd (fst out)) =
  if Qltb 0.75 (success_rate result) then
    <[h_target (hypothesis result) :=
        py_min 0.95 (default 0.5 (reasoning_frameworks self !! h_target (hypothesis result))
                     + 0.02 * success_rate result)]> (reasoning_frameworks self)
  else reasoning_frameworks self.
Proof.
  destruct (develop_epoch_fields self w) as (Hv & _ & _ & _ & Hfw & _).
  simpl in *. by rewrite Hfw, integrate_learning_frameworks, Hv.
Qed.

Lemma grows_refl (fw : gmap string Q) : grows fw fw.
Proof. intros f v Hf. exists v. split; [done | lra]. Qed.

Lemma grows_trans (fw1 fw2 fw3 : gmap string Q) :
  grows fw1 fw2 -> grows fw2 fw3 -> grows fw1 fw3.
Proof.
  intros H12 H23 f v Hf.
  destruct (H12 f v Hf) as (v2 & Hf2 & Hle2).
  destruct (H23 f v2 Hf2) as (v3 & Hf3 & Hle3).
  exists v3. split; [done | lra].
Qed.

Lemma develop_epoch_bounded (self : t) (w : World) :
  bounded (reasoning_frameworks self) ->
  bounded (reasoning_frameworks (snd (fst (develop_epoch self w)))).
Proof.
  intros Hb. rewrite develop_epoch_frameworks. simpl.
  set (result := fst (fst (develop_epoch self w))).
  destruct (Qltb 0.75 (success_rate result)) eqn:Hsr; [|done].
  apply Qltb_lt in Hsr.
  apply map_Forall_insert_2; [|done].
  split.
  - apply py_min_glb; [lra|].
    destruct (reasoning_frameworks self !! h_target (hypothesis result)) as [v|] eqn:Hv;
      simpl; [apply Hb in Hv|]; lra.
  - apply py_min_le_l.
Qed.

Lemma develop_epoch_grows (self : t) (w : World) :
  bounded (reasoning_frameworks self) ->
  grows (reasoning_frameworks self) (reasoning_frameworks (snd (fst (develop_epoch self w)))).
Proof.
  intros Hb. rewrite develop_epoch_frameworks. simpl.
  set (result := fst (fst (develop_epoch self w))).
  destruct (Qltb 0.75 (success_rate result)) eqn:Hsr; [|apply grows_refl].
  apply Qltb_lt in Hsr.
  intros f v Hf.
  destruct (decide (h_target (hypothesis result) = f)) as [->|Hne].
  - eexists. split; [apply lookup_insert_eq|].
    rewrite Hf. simpl. apply Hb in Hf. apply py_min_glb; lra.
  - exists v. rewrite lookup_insert_ne by done. split; [done | lra].
Qed.

Lemma develop_epochs_add (k j : nat) (self : t) (w : World) :
  develop_epochs (k + j) self w =
  develop_epochs j (fst (develop_epochs k self w)) (snd (develop_epochs k self w)).
Proof.
  revert self w. induction k as [|k IH]; intros self w; [done|].
  simpl. unfold bind. destruct (develop_epoch self w) as [[result self'] w']. simpl.
  apply IH.
Qed.

Lemma develop_epochs_S (k : nat) (self : t) (w : World) :
  develop_epochs (S k) self w =
  (let mid := develop_epochs k self w in
   let out := develop_epoch (fst mid) (snd mid) in
   (snd (fst out), snd out)).
Proof.
  replace (S k) with (k + 1)%nat by lia. rewrite develop_epochs_add.
  simpl. unfold bind, ret.
  by destruct (develop_epoch _ _) as [[? ?] ?].
Qed.

Lemma develop_epochs_bounded (k : nat) (self : t) (w : World) :
  bounded (reasoning_frameworks self) ->
  bounded (reasoning_frameworks (fst (develop_epochs k self w))).
Proof.
  intros Hb. induction k as [|k IH]; [done|].
  rewrite develop_epochs_S. simpl. by apply develop_epoch_bounded.
Qed.

Lemma develop_epochs_grows (k : nat) (self : t) (w : World) :
  bounded (reasoning_frameworks self) ->
  grows (reasoning_frameworks self) (reasoning_frameworks (fst (develop_epochs k self w))).
Proof.
  intros Hb. induction k as [|k IH]; [apply grows_refl|].
  rewrite develop_epochs_S. simpl.
  eapply grows_trans; [exact IH|].
  apply develop_epoch_grows. by apply develop_epochs_bounded.
Qed.

(** The ledger after [k] calls: the old ledger, then one entry per call,
    numbered from the agent's counter. *)
Lemma develop_epochs_ledger (k : nat) (self : t) (w : World) :
  let self' := fst (develop_epochs k self w) in
  epoch self' = (epoch self + k)%nat /\
  exists new, ledger self' = ledger self ++ new /\ map le_epoch new = seq (epoch self) k.
Proof.
  induction k as [|k IH].
  - simpl. split; [lia|]. exists []. by rewrite app_nil_r.
  - rewrite develop_epochs_S. cbv zeta in *. cbn [fst snd].
    destruct IH as (He & new & Hl & Hs).
    destruct (develop_epoch_fields (fst (develop_epochs k self w)) (snd (develop_epochs k self w)))
      as (_ & _ & _ & He' & _ & entry & Hl' & Hent & _).
    cbv zeta in *. split; [lia|].
    exists (new ++ [entry]). split.
    + by rewrite Hl', Hl, app_assoc.
    + rewrite map_app, Hs, seq_S. simpl. by rewrite Hent, He.
Qed.

End AgentFacts.

(** ** The independent-development agent *)

Section AgentClaims.
Context {World : Type} `{Host World}.
Import OGIAgent.

(** C3: after [k] calls of [develop_epoch] on a fresh agent the ledger has
    [k] entries, their cycle indices are 0, 1, ..., k-1 in this order, and
    the ledger after any further [j] calls starts with these very entries:
    later cycles neither change nor remove them. *)
Theorem C3_ledger_append_only (agent_id scenario : string) (k j : nat) (w : World) :
  let fresh := __init__ agent_id scenario in
  let after_k := fst (develop_epochs k fresh w) in
  let after_more := fst (develop_epochs (k + j) fresh w) in
  length (ledger after_k) = k /\
  map le_epoch (ledger after_k) = seq 0 k /\
  ledger after_k `prefix_of` ledger after_more.
Proof.
  intros fresh after_k after_more.
  destruct (develop_epochs_ledger k fresh w) as (_ & new & Hl & Hs).
  simpl in Hl, Hs. fold after_k in Hl.
  split; [|split].
  - rewrite Hl, <- (length_map le_epoch), Hs. apply length_seq.
  - by rewrite Hl.
  - unfold after_more. rewrite develop_epochs_add. fold after_k.
    destruct (develop_epochs_ledger j after_k (snd (develop_epochs k fresh w)))
      as (_ & more & Hm & _).
    simpl in Hm. by exists more.
Qed.

(** C5: [calculate_cci] returns the literal 0.65, without drawing, when the
    cycle counter is 0; for a counter c >= 1 it draws one Gaussian sample
    (mean 0, std 0.02), adds it to 0.65 + 0.02*ln(c+1) and clamps the sum
    into [0.60, 0.95], whatever the sample is. *)
Theorem C5_calculate_cci (self : t) (w : World) :
  let noise := fst (random_gauss 0 0.02 w) in
  let raw := 0.65 + 0.02 * math_log (inject_Z (Z.of_nat (epoch self + 1))) + noise in
  if (epoch self =? 0)%nat
  then calculate_cci self w = (0.65, w)
  else calculate_cci self w = (py_min 0.95 (py_max 0.60 raw), snd (random_gauss 0 0.02 w))
       /\ fst (calculate_cci self w) == Qmin 0.95 (Qmax 0.60 raw)
       /\ 0.60 <= fst (calculate_cci self w) <= 0.95.
Proof.
  intros noise raw. unfold calculate_cci.
  destruct (epoch self =? 0)%nat; [done|].
  unfold bind, ret. subst raw noise.
  destruct (random_gauss 0 0.02 w) as [g w']. simpl.
  split; [done|]. split.
  - by rewrite py_min_Qmin, py_max_Qmax.
  - split; [apply py_min_glb; [lra | apply py_max_ge_l] | apply py_min_le_l].
Qed.

(** C6: [calculate_mutation_drift] returns max(0, 0.10 - 0.005*cycle) plus
    one Gaussian sample (mean 0, std 0.01) and applies nothing after the
    addition; so the value is negative whenever the sample is below minus
    the base, in particular for any negative sample once the cycle counter
    has reached 20, where the base is 0. *)
Theorem C6_calculate_mutation_drift (self : t) (w : World) :
  let noise := fst (random_gauss 0 0.01 w) in
  let base := py_max 0 (0.10 - 0.005 * inject_Z (Z.of_nat (epoch self))) in
  calculate_mutation_drift self w = (base + noise, snd (random_gauss 0 0.01 w)) /\
  base == Qmax 0 (0.10 - 0.005 * inject_Z (Z.of_nat (epoch self))) /\
  (noise < - base -> fst (calculate_mutation_drift self w) < 0) /\
  ((20 <= epoch self)%nat -> noise < 0 -> fst (calculate_mutation_drift self w) < 0).
Proof.
  intros noise base. unfold calculate_mutation_drift, bind, ret. subst noise. fold base.
  destruct (random_gauss 0 0.01 w) as [g w']. simpl.
  split; [done|]. split; [apply py_max_Qmax|]. split.
  - intros Hg. lra.
  - intros He Hg.
    assert (Hb : base == 0).
    { subst base. destruct (py_max_cases 0 (0.10 - 0.005 * inject_Z (Z.of_nat (epoch self))))
        as [[Hlt _]|[_ ->]]; [|reflexivity].
      exfalso.
      assert (20 <= inject_Z (Z.of_nat (epoch self))).
      { change 20 with (inject_Z 20). rewrite <- Zle_Qle. lia. }
      lra. }
    lra.
Qed.

(** C7: after any number of [develop_epoch] calls on a fresh agent, whatever
    the draws are (so also when every evaluation passes), no strength in the
    mapping exceeds 0.95. *)
Theorem C7_strength_at_most_095 (agent_id scenario : string) (k : nat) (w : World)
    (f : string) (v : Q) :
  reasoning_frameworks (fst (develop_epochs k (__init__ agent_id scenario) w)) !! f = Some v ->
  v <= 0.95.
Proof.
  intros Hf.
  assert (Hb : bounded (reasoning_frameworks (__init__ agent_id scenario)))
    by apply map_Forall_empty.
  apply (develop_epochs_bounded k _ w) in Hb. by apply Hb in Hf as [_ ?].
Qed.

(** C8: in [develop_epoch] the evaluation fails exactly when the success
    rate is at most 0.75, and then the mapping is left as it was; when it
    passes, the target framework's strength (0.5 if the target was absent)
    is increased by 0.02 * success_rate, clamped to at most 0.95, and every
    other entry is unchanged. *)
Theorem C8_develop_epoch_frame (self : t) (w : World) :
  let out := develop_epoch self w in
  let result := fst (fst out) in
  let fw := reasoning_frameworks self in
  let fw' := reasoning_frameworks (snd (fst out)) in
  let tgt := h_target (hypothesis result) in
  let sr := success_rate result in
  (validation_passed result = false <-> sr <= 0.75) /\
  if validation_passed result
  then fw' !! tgt = Some (py_min 0.95 (default 0.5 (fw !! tgt) + 0.02 * sr))
       /\ py_min 0.95 (default 0.5 (fw !! tgt) + 0.02 * sr)
          == Qmin 0.95 (default 0.5 (fw !! tgt) + 0.02 * sr)
       /\ (forall f, f <> tgt -> fw' !! f = fw !! f)
  else fw' = fw.
Proof.
  intros out result fw fw' tgt sr.
  destruct (develop_epoch_fields self w) as (Hv & _).
  pose proof (develop_epoch_frameworks self w) as Hfw.
  simpl in Hv, Hfw. fold out result in Hv. fold out result tgt sr fw fw' in Hfw.
  fold sr in Hv. rewrite <- Hv in Hfw.
  split; [rewrite Hv; apply Qltb_ge|].
  destruct (validation_passed result); [|done].
  rewrite Hfw. split; [apply lookup_insert_eq|].
  split; [apply py_min_Qmin|].
  intros f Hne. by apply lookup_insert_ne.
Qed.

End AgentClaims.

(** ** The runner *)

Section RunnerFacts.
Context {World : Type} `{Host World}.
Import SimulationRunner.

Lemma mapM_length {A B : Type} (f : A -> M World B) (l : list A) (w : World) :
  length (fst (mapM f l w)) = length l.
Proof.
  revert w. induction l as [|x l IH]; intros w; [done|].
  simpl. unfold bind, ret.
  destruct (f x w) as [y w1]. specialize (IH w1).
  destruct (mapM f l w1) as [ys w2]. simpl in *. by rewrite IH.
Qed.

Lemma ogi_supervised_sync_eq (self : t) (agents : list OGIAgent.t) (w : World) :
  ogi_supervised_sync self agents w =
  (fst (random_gauss 15 3 w), agents, snd (random_gauss 15 3 w)).
Proof.
  unfold ogi_supervised_sync, bind, ret. by destruct (random_gauss 15 3 w).
Qed.





End RunnerFacts.

Section RunnerClaims.
Context {World : Type} `{Host World}.
Import SimulationRunner.

(** C1 (as amended): [ogi_supervised_sync] draws one Gaussian sample (mean
    15, std 3), returns it as the communication cost, and leaves every
    agent exactly as it was, so every framework mapping after the call is
    the mapping before it; handing the agents over in another order gives
    the same cost and the same agents with the same mappings. *)
Theorem C1_sync_leaves_mappings (self : t) (agents agents' : list OGIAgent.t) (w : World) :
  agents ≡ₚ agents' ->
  ogi_supervised_sync self agents w =
    (fst (random_gauss 15 3 w), agents, snd (random_gauss 15 3 w)) /\
  map OGIAgent.reasoning_frameworks (snd (fst (ogi_supervised_sync self agents w))) =
    map OGIAgent.reasoning_frameworks agents /\
  fst (fst (ogi_supervised_sync self agents' w)) = fst (fst (ogi_supervised_sync self agents w)) /\
  snd (fst (ogi_supervised_sync self agents' w)) ≡ₚ snd (fst (ogi_supervised_sync self agents w)).
Proof.
  intros Hperm. rewrite !ogi_supervised_sync_eq. cbn [fst snd].
  repeat split; try done; by symmetry.
Qed.


End RunnerClaims.

(** ** Scenario tags do not reach the numbers *)

Section ScenarioFacts.
Context {World : Type} `{Host World}.
Import SimulationRunner.

Lemma mapM_congr {A B : Type} (f : A -> M World B) (g : A -> A) (h : B -> B) :
  (forall a w, f (g a) w = (h (fst (f a w)), snd (f a w))) ->
  forall l w, mapM f (map g l) w = (map h (fst (mapM f l w)), snd (mapM f l w)).
Proof.
  intros Hf. induction l as [|a l IH]; intros w; [done|].
  simpl. unfold bind, ret. rewrite Hf.
  destruct (f a w) as [b w1]. cbn [fst snd]. rewrite IH.
  by destruct (mapM f l w1) as [bs w2].
Qed.

Lemma mapM_same {A B : Type} (f : A -> M World B) (g : A -> A) :
  (forall a w, f (g a) w = f a w) ->
  forall l w, mapM f (map g l) w = mapM f l w.
Proof.
  intros Hf l w. rewrite (mapM_congr f g id).
  - rewrite map_id. by destruct (mapM f l w).
  - intros a w'. rewrite Hf. by destruct (f a w').
Qed.

Lemma develop_epoch_with_scenario (s : string) (a : OGIAgent.t) (w : World) :
  OGIAgent.develop_epoch (ogi_with_scenario s a) w =
  (prod_map id (ogi_with_scenario s) (fst (OGIAgent.develop_epoch a w)),
   snd (OGIAgent.develop_epoch a w)).
Proof.
  unfold OGIAgent.develop_epoch, OGIAgent.generate_hypothesis, OGIAgent.test_hypothesis,
    OGIAgent.record_to_ledger.
  step_binds. cbn.
  unfold OGIAgent.integrate_learning. cbn.
  by destruct (Qltb 0.75 _).
Qed.

Lemma train_epoch_with_scenario (s : string) (a : FederatedAgent.t) (w : World) :
  FederatedAgent.train_epoch (fl_with_scenario s a) w =
  (prod_map id (fl_with_scenario s) (fst (FederatedAgent.train_epoch a w)),
   snd (FederatedAgent.train_epoch a w)).
Proof.
  unfold FederatedAgent.train_epoch, FederatedAgent.local_training,
    FederatedAgent.upload_to_server.
  by step_binds.
Qed.

Lemma map_snd_prod_map {A B : Type} (g : B -> B) (l : list (A * B)) :
  map snd (map (prod_map id g) l) = map g (map snd l).
Proof. rewrite !map_map. by apply map_ext; intros [? ?]. Qed.

Lemma map_fst_prod_map {A B : Type} (g : B -> B) (l : list (A * B)) :
  map fst (map (prod_map id g) l) = map fst l.
Proof. rewrite !map_map. by apply map_ext; intros [? ?]. Qed.

Lemma run_epoch_scenario_free (s1 s2 : string) (st1 st2 : LoopState) (e : nat) (w : World) :
  same_agents s2 st1 st2 ->
  let o1 := run_epoch s1 st1 e w in
  let o2 := run_epoch s2 st2 e w in
  snd o1 = snd o2 /\
  same_agents s2 (fst o1) (fst o2) /\
  exists rec1 rec2 msgs1 msgs2,
    runner (fst o1) = extend_logs (append_result (runner st1) rec1) msgs1 /\
    runner (fst o2) = extend_logs (append_result (runner st2) rec2) msgs2 /\
    mr_scenario rec1 = s1 /\ mr_scenario rec2 = s2 /\
    numbers rec1 = numbers rec2.
Proof.
  intros [Ho Hf] o1 o2. subst o1 o2.
  destruct (run_epoch s2 st2 e w) as [st2' w2'] eqn:E2.
  destruct (run_epoch s1 st1 e w) as [st1' w1'] eqn:E1.
  cbn [fst snd]. revert E1 E2. unfold run_epoch. cbv zeta.
  rewrite Ho, Hf. unfold bind, ret.
  rewrite (mapM_congr _ _ _ (develop_epoch_with_scenario s2)).
  destruct (mapM OGIAgent.develop_epoch (ogi_agents st1) w) as [ogi_out w1]. cbn [fst snd].
  rewrite (mapM_congr _ _ _ (train_epoch_with_scenario s2)).
  destruct (mapM FederatedAgent.train_epoch (fl_agents st1) w1) as [fl_out w2]. cbn [fst snd].
  rewrite !map_snd_prod_map, !map_fst_prod_map.
  destruct (e mod 5 =? 0)%nat; rewrite ?ogi_supervised_sync_eq; cbn [fst snd];
    repeat first
      [ rewrite (mapM_same OGIAgent.calculate_cci (ogi_with_scenario s2)) by done
      | rewrite (mapM_same FederatedAgent.calculate_cci (fl_with_scenario s2)) by done
      | rewrite (mapM_same OGIAgent.calculate_mutation_drift (ogi_with_scenario s2)) by done
      | rewrite (mapM_same FederatedAgent.calculate_mutation_drift (fl_with_scenario s2)) by done
      | match goal with
        | |- context [let (_, _) := mapM ?f ?l ?w0 in _] => destruct (mapM f l w0)
        end ];
    intros [= <- <-] [= <- <-];
    (split; [done|]); (split; [done|]);
    eexists _, _, _, _;
    (split; [unfold extend_logs; cbn; rewrite <- ?app_assoc; reflexivity|]);
    (split; [unfold extend_logs; cbn; rewrite <- ?app_assoc; reflexivity|]);
    unfold numbers; cbn; by rewrite !length_map.
Qed.

Lemma run_epochs_scenario_free (s1 s2 : string) (l : list nat) (st1 st2 : LoopState) (w : World) :
  same_agents s2 st1 st2 ->
  let o1 := foldM (run_epoch s1) st1 l w in
  let o2 := foldM (run_epoch s2) st2 l w in
  snd o1 = snd o2 /\
  exists recs1 recs2,
    results (runner (fst o1)) = results (runner st1) ++ recs1 /\
    results (runner (fst o2)) = results (runner st2) ++ recs2 /\
    Forall (fun rec => mr_scenario rec = s1) recs1 /\
    Forall (fun rec => mr_scenario rec = s2) recs2 /\
    map numbers recs1 = map numbers recs2.
Proof.
  revert st1 st2 w. induction l as [|e l IH]; intros st1 st2 w Hst.
  - simpl. split; [done|]. exists [], []. by rewrite !app_nil_r.
  - simpl. unfold bind.
    destruct (run_epoch_scenario_free s1 s2 st1 st2 e w Hst)
      as (Hw & Hst' & rec1 & rec2 & m1 & m2 & Hr1 & Hr2 & Hs1 & Hs2 & Hn).
    destruct (run_epoch s1 st1 e w) as [st1' w1].
    destruct (run_epoch s2 st2 e w) as [st2' w2].
    cbn [fst snd] in *. subst w2.
    destruct (IH st1' st2' w1 Hst') as (Hw & recs1 & recs2 & H1 & H2 & Hf1 & Hf2 & Hns).
    split; [done|].
    exists (rec1 :: recs1), (rec2 :: recs2).
    rewrite H1, H2, Hr1, Hr2. cbn. rewrite <- !app_assoc.
    repeat split; try done; try by constructor.
    by rewrite Hn, Hns.
Qed.

Lemma run_scenarios_cons (self : t) (s : string) (l : list string) (w : World) :
  foldM run_scenario self (s :: l) w =
  foldM run_scenario (fst (run_scenario self s w)) l (snd (run_scenario self s w)).
Proof. simpl. unfold bind. by destruct (run_scenario self s w). Qed.

(** C9: with the same configuration (agent and cycle counts) and the
    random generator in the same state when the scenario starts (seeded
    identically per scenario), a scenario consumes the same draws in the
    same order, leaves the generator in the same state and adds records
    with the same numbers, whatever its name and whatever was processed
    before it (the records the runner already holds): its outcome does not
    depend on its position in the processing order.  [run_full_simulation]
    on two scenarios is the one [run_scenario] after the other, the
    generator handed on from the first to the second. *)
Theorem C9_scenario_outcome_from_start_state
    (self1 self2 : t) (s1 s2 : string) (w : World) :
  num_agents self1 = num_agents self2 ->
  num_epochs self1 = num_epochs self2 ->
  let o1 := run_scenario self1 s1 w in
  let o2 := run_scenario self2 s2 w in
  snd o1 = snd o2 /\
  (exists recs1 recs2,
     results (fst o1) = results self1 ++ recs1 /\
     results (fst o2) = results self2 ++ recs2 /\
     Forall (fun rec => mr_scenario rec = s1) recs1 /\
     Forall (fun rec => mr_scenario rec = s2) recs2 /\
     map numbers recs1 = map numbers recs2) /\
  run_full_simulation (set_scenarios self1 [s1; s2]) w =
    run_scenario (fst (run_scenario (set_scenarios self1 [s1; s2]) s1 w)) s2
                 (snd (run_scenario (set_scenarios self1 [s1; s2]) s1 w)).
Proof.
  intros Hna Hne o1 o2. subst o1 o2.
  split; [|split].
  - unfold run_scenario, bind, ret. rewrite <- Hna, <- Hne.
    match goal with |- context [foldM (run_epoch s1) ?st1 ?l w] =>
      match goal with |- context [foldM (run_epoch s2) ?st2 l w] =>
        destruct (run_epochs_scenario_free s1 s2 l st1 st2 w) as (Hw & _);
        [ split; cbn; rewrite !map_map; by apply map_ext |];
        destruct (foldM (run_epoch s1) st1 l w), (foldM (run_epoch s2) st2 l w)
      end end.
    done.
  - unfold run_scenario, bind, ret. rewrite <- Hna, <- Hne.
    match goal with |- context [foldM (run_epoch s1) ?st1 ?l w] =>
      match goal with |- context [foldM (run_epoch s2) ?st2 l w] =>
        destruct (run_epochs_scenario_free s1 s2 l st1 st2 w) as (_ & Hrecs);
        [ split; cbn; rewrite !map_map; by apply map_ext |];
        destruct (foldM (run_epoch s1) st1 l w), (foldM (run_epoch s2) st2 l w)
      end end.
    done.
  - unfold run_full_simulation. cbn [scenarios set_scenarios].
    rewrite run_scenarios_cons. simpl. unfold bind, ret.
    by destruct (run_scenario (fst _) s2 _).
Qed.

End ScenarioFacts.

(** ** The strengths of the independent-development agent over a run *)

Section StrengthClaims.
Context {World : Type} `{Host World}.
Import OGIAgent.

(** C10: at any point of an agent's life (a fresh agent after [k] calls of
    [develop_epoch]) every strength in the mapping lies in [0.5, 0.95].  One
    more call keeps every entry and leaves it as it is, except the target of
    a passed evaluation, which goes from [v] up to min(0.95, v + 0.02 *
    success_rate) with success_rate > 0; an absent framework stays absent
    unless it is that target, which then starts from 0.5.  After any
    further [j] calls every entry is still there, with a strength at least
    as high.  The Synchronizer returns the agents as they were. *)
Theorem C10_strengths_in_range_and_growing
    (agent_id scenario : string) (k j : nat) (w : World) :
  let before := develop_epochs k (__init__ agent_id scenario) w in
  let out := develop_epoch (fst before) (snd before) in
  let result := fst (fst out) in
  let tgt := h_target (hypothesis result) in
  let sr := success_rate result in
  let fw := reasoning_frameworks (fst before) in
  let fw' := reasoning_frameworks (snd (fst out)) in
  let fw_later :=
    reasoning_frameworks (fst (develop_epochs (k + j) (__init__ agent_id scenario) w)) in
  (forall f v, fw !! f = Some v -> 0.5 <= v <= 0.95) /\
  (forall f v, fw !! f = Some v ->
     fw' !! f = Some v \/
     (f = tgt /\ 0 < sr /\ fw' !! f = Some (py_min 0.95 (v + 0.02 * sr))
      /\ v <= py_min 0.95 (v + 0.02 * sr))) /\
  (forall f, fw !! f = None ->
     fw' !! f = None \/
     (f = tgt /\ 0 < sr /\ fw' !! f = Some (py_min 0.95 (0.5 + 0.02 * sr)))) /\
  (forall f v, fw !! f = Some v -> exists v', fw_later !! f = Some v' /\ v <= v') /\
  (forall (self : SimulationRunner.t) (agents : list t) (w' : World),
     snd (fst (SimulationRunner.ogi_supervised_sync self agents w')) = agents).
Proof.
  intros before out result tgt sr fw fw' fw_later.
  assert (Hb : bounded fw).
  { apply develop_epochs_bounded, map_Forall_empty. }
  pose proof (develop_epoch_frameworks (fst before) (snd before)) as Hfw.
  cbv zeta in Hfw. fold out result tgt sr fw fw' in Hfw.
  split; [exact Hb|]. split; [|split; [|split]].
  - intros f v Hf. rewrite Hfw.
    destruct (Qltb 0.75 sr) eqn:Hsr; [|by left].
    apply Qltb_lt in Hsr.
    destruct (decide (tgt = f)) as [<-|Hne].
    + right. rewrite lookup_insert_eq, Hf. simpl.
      apply Hb in Hf. repeat split; try done; [lra|].
      apply py_min_glb; lra.
    + left. by rewrite lookup_insert_ne.
  - intros f Hf. rewrite Hfw.
    destruct (Qltb 0.75 sr) eqn:Hsr; [|by left].
    apply Qltb_lt in Hsr.
    destruct (decide (tgt = f)) as [<-|Hne].
    + right. rewrite lookup_insert_eq, Hf. simpl. repeat split; try done. lra.
    + left. by rewrite lookup_insert_ne.
  - subst fw_later. rewrite develop_epochs_add. fold before.
    exact (develop_epochs_grows j (fst before) (snd before) Hb).
  - intros self agents w'. by rewrite ogi_supervised_sync_eq.
Qed.

End StrengthClaims.

(** * Concrete runs on the counter host *)

Section ConcreteRuns.
Import CounterHost.


(** C1, the claim at a concrete input: at the first synchronization of a
    run, agent 1 holds [causal_inference] at 18140/35000 and agent 4 holds
    it at 36180/70000; the claimed nudge takes agent 1 to 18139/35000,
    [ogi_supervised_sync] leaves it at 18140/35000. *)
Lemma C1_counterexample :
  let post := snd (fst (SimulationRunner.ogi_supervised_sync SimulationRunner.__init__
                          first_sync_agents first_sync_world)) in
  (post !! 1%nat) ≫= (fun a => OGIAgent.reasoning_frameworks a !! "causal_inference")
    = Some (18140 # 35000) /\
  option_map Qred
    (claimed_post_sync (map OGIAgent.reasoning_frameworks first_sync_agents) 1 "causal_inference")
    = Some (18139 # 35000) /\
  ~ (18140 # 35000) == (18139 # 35000).
Proof.
  split; [by vm_compute|]. split; [by vm_compute|].
  unfold Qeq. by vm_compute.
Qed.

Lemma C1_witness :
  first_sync_agents ≡ₚ rev first_sync_agents /\
  map OGIAgent.reasoning_frameworks
      (snd (fst (SimulationRunner.ogi_supervised_sync SimulationRunner.__init__
                   first_sync_agents first_sync_world))) =
  map OGIAgent.reasoning_frameworks first_sync_agents.
Proof.
  assert (Hp : first_sync_agents ≡ₚ rev first_sync_agents) by apply Permutation_rev.
  split; [exact Hp|].
  exact (proj1 (proj2 (C1_sync_leaves_mappings SimulationRunner.__init__ _ _
                         first_sync_world Hp))).
Defined.



Lemma C6_witness :
  (20 <= OGIAgent.epoch (fst agent_20))%nat /\
  fst (random_gauss 0 0.01 (snd agent_20)) < 0 /\
  fst (OGIAgent.calculate_mutation_drift (fst agent_20) (snd agent_20)) < 0.
Proof.
  assert (He : (20 <= OGIAgent.epoch (fst agent_20))%nat) by (vm_compute; lia).
  assert (Hn : fst (random_gauss 0 0.01 (snd agent_20)) < 0) by (by vm_compute).
  split; [exact He|]. split; [exact Hn|].
  exact (proj2 (proj2 (proj2 (C6_calculate_mutation_drift (fst agent_20) (snd agent_20)))) He Hn).
Defined.

Lemma C7_witness :
  OGIAgent.reasoning_frameworks
    (fst (OGIAgent.develop_epochs 3 (OGIAgent.__init__ "ogi_0" "medical_diagnosis") 0%nat))
    !! "causal_inference" = Some (18140 # 35000) /\
  18140 # 35000 <= 0.95.
Proof.
  assert (Hl : OGIAgent.reasoning_frameworks
                 (fst (OGIAgent.develop_epochs 3 (OGIAgent.__init__ "ogi_0" "medical_diagnosis") 0%nat))
                 !! "causal_inference" = Some (18140 # 35000)) by (by vm_compute).
  split; [exact Hl|].
  exact (C7_strength_at_most_095 "ogi_0" "medical_diagnosis" 3 0%nat "causal_inference" _ Hl).
Defined.

Lemma C8_witness :
  "pattern_recognition" <>
    h_target (hypothesis (fst (fst (OGIAgent.develop_epoch agent_a 4%nat)))) /\
  OGIAgent.reasoning_frameworks (snd (fst (OGIAgent.develop_epoch agent_a 4%nat)))
    !! "pattern_recognition"
  = OGIAgent.reasoning_frameworks agent_a !! "pattern_recognition".
Proof.
  assert (Hne : "pattern_recognition" <>
                h_target (hypothesis (fst (fst (OGIAgent.develop_epoch agent_a 4%nat)))))
    by (by vm_compute).
  assert (Hv : validation_passed (fst (fst (OGIAgent.develop_epoch agent_a 4%nat))) = true)
    by (by vm_compute).
  split; [exact Hne|].
  pose proof (C8_develop_epoch_frame agent_a 4%nat) as [_ Hc].
  rewrite Hv in Hc. exact (proj2 (proj2 Hc) _ Hne).
Defined.

Lemma C9_witness :
  let later := fst (SimulationRunner.run_scenario runner_ab "A" 0%nat) in
  SimulationRunner.num_agents runner_ab = SimulationRunner.num_agents later /\
  SimulationRunner.num_epochs runner_ab = SimulationRunner.num_epochs later /\
  snd (SimulationRunner.run_scenario runner_ab "A" 0%nat)
  = snd (SimulationRunner.run_scenario later "B" 0%nat).
Proof.
  intros later.
  assert (Ha : SimulationRunner.num_agents runner_ab = SimulationRunner.num_agents later)
    by (by vm_compute).
  assert (He : SimulationRunner.num_epochs runner_ab = SimulationRunner.num_epochs later)
    by (by vm_compute).
  split; [exact Ha|]. split; [exact He|].
  exact (proj1 (C9_scenario_outcome_from_start_state runner_ab later "A" "B" 0%nat Ha He)).
Defined.

Lemma C10_witness :
  OGIAgent.reasoning_frameworks agent_a !! "pattern_recognition" = Some (18040 # 35000) /\
  0.5 <= 18040 # 35000 <= 0.95.
Proof.
  assert (Hl : OGIAgent.reasoning_frameworks agent_a !! "pattern_recognition"
               = Some (18040 # 35000)) by (by vm_compute).
  split; [exact Hl|].
  exact (proj1 (C10_strengths_in_range_and_growing "ogi_0" "medical_diagnosis" 1 5 0%nat)
           "pattern_recognition" _ Hl).
Defined.

End ConcreteRuns.

(** * Further properties of the simulation *)

Section RunFacts.
Context {World : Type} `{Host World}.
Import SimulationRunner.

(** One turn of the loop of [run_scenario], call by call. *)
Lemma run_epoch_unfold (sc : string) (st : LoopState) (e : nat) (w : World) :
  let o := mapM OGIAgent.develop_epoch (ogi_agents st) w in
  let f := mapM FederatedAgent.train_epoch (fl_agents st) (snd o) in
  let agents1 := map snd (fst o) in
  let fl1 := map snd (fst f) in
  let s := if (e mod 5 =? 0)%nat then random_gauss 15 3 (snd f) else (0, snd f) in
  let c1 := mapM OGIAgent.calculate_cci agents1 (snd s) in
  let c2 := mapM FederatedAgent.calculate_cci fl1 (snd c1) in
  let d1 := mapM OGIAgent.calculate_mutation_drift agents1 (snd c2) in
  let d2 := mapM FederatedAgent.calculate_mutation_drift fl1 (snd d1) in
  exists msgs,
    length msgs = (if (e mod 5 =? 0)%nat then 3 else 2)%nat /\
    run_epoch sc st e w =
    ({| ogi_agents := agents1;
        fl_agents := fl1;
        runner := extend_logs
          (append_result (runner st)
             {| mr_scenario := sc;
                mr_epoch := e;
                cci_ogi := np_mean (fst c1);
                cci_flower := np_mean (fst c2);
                mutation_drift_ogi := np_mean (fst d1);
                mutation_drift_flower := np_mean (fst d2);
                comm_ogi_mb := fst s;
                comm_flower_mb :=
                  fold_left (fun acc result => acc + FederatedAgent.get_communication_mb result 45)
                            (map fst (fst f)) 0;
                mr_ogi_agents := length agents1;
                mr_fl_agents := length fl1 |}) msgs |},
     snd d2).
Proof.
  cbv zeta. unfold run_epoch. cbv zeta. unfold bind at 1.
  destruct (mapM OGIAgent.develop_epoch (ogi_agents st) w) as [ogi_out w1]. cbn [fst snd].
  unfold bind at 1.
  destruct (mapM FederatedAgent.train_epoch (fl_agents st) w1) as [fl_out w2]. cbn [fst snd].
  unfold bind at 1.
  destruct (e mod 5 =? 0)%nat.
  - rewrite ogi_supervised_sync_eq.
    destruct (random_gauss 15 3 w2) as [comm w3]. cbn [fst snd].
    unfold bind, ret.
    repeat (match goal with |- context [let (_, _) := mapM ?f ?l ?w0 in _] =>
              destruct (mapM f l w0) end; cbn [fst snd]).
    eexists. split; [|unfold extend_logs; cbn; rewrite <- app_assoc; reflexivity].
    reflexivity.
  - unfold bind, ret. cbn [fst snd].
    repeat (match goal with |- context [let (_, _) := mapM ?f ?l ?w0 in _] =>
              destruct (mapM f l w0) end; cbn [fst snd]).
    eexists. split; [|reflexivity]. reflexivity.
Qed.

End RunFacts.

Section RunRecords.
Context {World : Type} `{Host World}.
Import SimulationRunner.

Lemma mapM_Forall {A B : Type} (f : A -> M World B) (P : B -> Prop) :
  (forall a w, P (fst (f a w))) ->
  forall l w, Forall P (fst (mapM f l w)).
Proof.
  intros Hf. induction l as [|a l IH]; intros w; [by constructor|].
  simpl. unfold bind, ret. specialize (Hf a w).
  destruct (f a w) as [b w1]. specialize (IH w1).
  destruct (mapM f l w1) as [bs w2]. by constructor.
Qed.

Lemma mapM_Forall2 {A B : Type} (f : A -> M World B) (l : list A) (w : World) :
  Forall2 (fun a b => exists w', b = fst (f a w')) l (fst (mapM f l w)).
Proof.
  revert w. induction l as [|a l IH]; intros w; [by constructor|].
  simpl. unfold bind, ret.
  destruct (f a w) as [b w1] eqn:E. specialize (IH w1).
  destruct (mapM f l w1) as [bs w2]. cbn [fst] in *.
  constructor; [|done]. exists w. by rewrite E.
Qed.

Lemma sum_bounds (lo hi : Q) (l : list Q) :
  Forall (fun x => lo <= x <= hi) l ->
  lo * inject_Z (Z.of_nat (length l)) <= fold_right Qplus 0 l
  /\ fold_right Qplus 0 l <= hi * inject_Z (Z.of_nat (length l)).
Proof.
  induction 1 as [|x l [Hlo Hhi] _ [IHlo IHhi]].
  - cbn [fold_right length]. change (inject_Z (Z.of_nat 0)) with 0. lra.
  - cbn [fold_right length]. rewrite Nat2Z.inj_succ, <- Z.add_1_r, inject_Z_plus.
    change (inject_Z 1) with 1. revert IHlo IHhi.
    generalize (inject_Z (Z.of_nat (length l))) (fold_right Qplus 0 l).
    intros n s IHlo IHhi. rewrite !Qmult_plus_distr_r, !Qmult_1_r. split; lra.
Qed.

(** The mean of a non-empty list lies between any bounds of its elements. *)
Lemma np_mean_bounds (lo hi : Q) (l : list Q) :
  l <> [] -> Forall (fun x => lo <= x <= hi) l -> lo <= np_mean l <= hi.
Proof.
  intros Hne Hall. destruct (sum_bounds lo hi l Hall) as [Hlo Hhi].
  assert (Hn : 0 < inject_Z (Z.of_nat (length l))).
  { change 0 with (inject_Z 0). rewrite <- Zlt_Qlt. destruct l; [done|]. simpl. lia. }
  unfold np_mean. split.
  - apply Qle_shift_div_l; [done|]. lra.
  - apply Qle_shift_div_r; [done|]. lra.
Qed.

Lemma ogi_cci_range (a : OGIAgent.t) (w : World) :
  0.60 <= fst (OGIAgent.calculate_cci a w) <= 0.95.
Proof.
  unfold OGIAgent.calculate_cci. destruct (OGIAgent.epoch a =? 0)%nat.
  - simpl. lra.
  - unfold bind, ret. destruct (random_gauss 0 0.02 w) as [g w']. simpl.
    split; [apply py_min_glb; [lra | apply py_max_ge_l] | apply py_min_le_l].
Qed.

Lemma fl_cci_range (a : FederatedAgent.t) (w : World) :
  0.40 <= fst (FederatedAgent.calculate_cci a w) <= 0.70.
Proof.
  unfold FederatedAgent.calculate_cci, bind, ret.
  destruct (random_gauss 0.55 0.03 w) as [g w']. simpl.
  split; [apply py_max_ge_l|].
  destruct (py_max_cases 0.40 (py_min 0.70 g)) as [[_ ->]|[_ ->]]; [apply py_min_le_l | lra].
Qed.

Lemma fl_comm_total (l : list FederatedAgent.LocalUpdate) (acc : Q) :
  fold_left (fun acc result => acc + FederatedAgent.get_communication_mb result 45) l acc
  == acc + 45 * inject_Z (Z.of_nat (length l)).
Proof.
  revert acc. induction l as [|u l IH]; intros acc.
  - cbn [fold_left length]. change (inject_Z (Z.of_nat 0)) with 0. lra.
  - cbn [fold_left length]. rewrite IH. unfold FederatedAgent.get_communication_mb.
    rewrite Nat2Z.inj_succ, <- Z.add_1_r, inject_Z_plus. change (inject_Z 1) with 1. lra.
Qed.

(** The record, the log lines and the agent counts of one turn of the loop. *)
Lemma run_epoch_record (sc : string) (st : LoopState) (e : nat) (w : World) :
  let st' := fst (run_epoch sc st e w) in
  length (ogi_agents st') = length (ogi_agents st) /\
  length (fl_agents st') = length (fl_agents st) /\
  exists rec msgs,
    runner st' = extend_logs (append_result (runner st) rec) msgs /\
    length msgs = (if (e mod 5 =? 0)%nat then 3 else 2)%nat /\
    record_ok (length (ogi_agents st)) (length (fl_agents st)) sc e rec.
Proof.
  destruct (run_epoch_unfold sc st e w) as (msgs & Hm & ->). cbv zeta.
  cbn [fst snd ogi_agents fl_agents runner].
  set (o := mapM OGIAgent.develop_epoch (ogi_agents st) w).
  set (f := mapM FederatedAgent.train_epoch (fl_agents st) (snd o)).
  set (s := if (e mod 5 =? 0)%nat then random_gauss 15 3 (snd f) else (0, snd f)).
  set (c1 := mapM OGIAgent.calculate_cci (map snd (fst o)) (snd s)).
  set (c2 := mapM FederatedAgent.calculate_cci (map snd (fst f)) (snd c1)).
  assert (Ho : length (map snd (fst o)) = length (ogi_agents st))
    by (rewrite length_map; apply mapM_length).
  assert (Hf : length (map snd (fst f)) = length (fl_agents st))
    by (rewrite length_map; apply mapM_length).
  assert (Hc1 : length (fst c1) = length (ogi_agents st))
    by (unfold c1; by rewrite mapM_length).
  assert (Hc2 : length (fst c2) = length (fl_agents st))
    by (unfold c2; by rewrite mapM_length).
  split; [done|]. split; [done|].
  eexists _, msgs. split; [reflexivity|]. split; [done|].
  unfold record_ok. cbn [mr_scenario mr_epoch mr_ogi_agents mr_fl_agents
                           comm_flower_mb cci_ogi cci_flower].
  do 4 (split; [done|]). split; [|split].
  - rewrite fl_comm_total, length_map, <- (length_map snd), Hf. lra.
  - intros Hpos. apply np_mean_bounds; [|apply mapM_Forall, ogi_cci_range].
    intros Hnil. rewrite Hnil in Hc1. simpl in Hc1. lia.
  - intros Hpos. apply np_mean_bounds; [|apply mapM_Forall, fl_cci_range].
    intros Hnil. rewrite Hnil in Hc2. simpl in Hc2. lia.
Qed.

(** The records, the log lines and the configuration over the cycles [l]. *)
Lemma run_epochs_records (sc : string) (l : list nat) (st : LoopState) (w : World) :
  let st' := fst (foldM (run_epoch sc) st l w) in
  (scenarios (runner st') = scenarios (runner st) /\
   num_agents (runner st') = num_agents (runner st) /\
   num_epochs (runner st') = num_epochs (runner st)) /\
  exists recs msgs,
    results (runner st') = results (runner st) ++ recs /\
    logs (runner st') = logs (runner st) ++ msgs /\
    Forall2 (record_ok (length (ogi_agents st)) (length (fl_agents st)) sc) l recs /\
    length msgs = (2 * length l + length (filter (fun e => (e mod 5 = 0)%nat) l))%nat.
Proof.
  revert st w. induction l as [|e l IH]; intros st w.
  - simpl. split; [done|]. exists [], []. rewrite !app_nil_r. repeat split; try done.
  - simpl foldM. unfold bind.
    destruct (run_epoch_record sc st e w) as (Hlo & Hlf & rec & m & Hr & Hm & Hok).
    destruct (run_epoch sc st e w) as [st1 w1]. cbn [fst] in *.
    destruct (IH st1 w1) as ((Hs & Hna & Hne) & recs & msgs & Hrs & Hls & Hall & Hlen).
    cbv zeta. rewrite Hs, Hna, Hne, Hrs, Hls, Hr. cbn [extend_logs append_result scenarios
      num_agents num_epochs results logs].
    split; [done|].
    exists (rec :: recs), (m ++ msgs). rewrite <- !app_assoc.
    split; [done|]. split; [done|]. split.
    + constructor; [done|]. by rewrite <- Hlo, <- Hlf.
    + rewrite length_app, Hm, Hlen, filter_cons. cbn [length].
      destruct (Nat.eqb_spec (e mod 5) 0) as [He|He].
      * rewrite decide_True by done. simpl. lia.
      * rewrite decide_False by done. lia.
Qed.

Lemma record_ok_epochs (no nf : nat) (sc : string) (l : list nat) (recs : list MetricRecord) :
  Forall2 (record_ok no nf sc) l recs ->
  map mr_epoch recs = l /\ map mr_scenario recs = replicate (length l) sc.
Proof.
  induction 1 as [|e rec l recs (Hs & He & _) _ [IH1 IH2]]; [done|].
  simpl. by rewrite Hs, He, IH1, IH2.
Qed.

Lemma record_ok_Forall (no nf : nat) (sc : string) (l : list nat) (recs : list MetricRecord) :
  Forall2 (record_ok no nf sc) l recs ->
  Forall (fun rec => exists e, record_ok no nf sc e rec) recs.
Proof. induction 1; constructor; eauto. Qed.

Lemma run_scenario_final (self : t) (sc : string) (w : World) :
  run_scenario self sc w = (runner (fst (final_state self sc w)), snd (final_state self sc w)).
Proof.
  unfold run_scenario, final_state, initial_state, bind, ret.
  by destruct (foldM _ _ _ w).
Qed.

Lemma initial_state_lengths (self : t) (sc : string) :
  length (ogi_agents (initial_state self sc)) = Z.to_nat (num_agents self) /\
  length (fl_agents (initial_state self sc)) = Z.to_nat (num_agents self).
Proof. unfold initial_state, py_range. cbn. by rewrite !length_map, !length_seq. Qed.

(** What [run_scenario] does on any runner. *)
Lemma run_scenario_records (self : t) (sc : string) (w : World) :
  let self' := fst (run_scenario self sc w) in
  let n := Z.to_nat (num_epochs self) in
  let k := Z.to_nat (num_agents self) in
  (scenarios self' = scenarios self /\
   num_agents self' = num_agents self /\
   num_epochs self' = num_epochs self) /\
  exists recs msgs,
    results self' = results self ++ recs /\
    logs self' = logs self ++ msgs /\
    Forall2 (record_ok k k sc) (seq 0 n) recs /\
    length msgs = (2 * n + sync_count n)%nat.
Proof.
  cbv zeta. rewrite run_scenario_final. cbn [fst]. unfold final_state.
  destruct (run_epochs_records sc (py_range (num_epochs self)) (initial_state self sc) w)
    as (Hcfg & recs & msgs & Hr & Hl & Hall & Hlen).
  destruct (initial_state_lengths self sc) as [Ho Hf]. rewrite Ho, Hf in Hall.
  split; [exact Hcfg|]. exists recs, msgs.
  split; [exact Hr|]. split; [exact Hl|]. split; [exact Hall|].
  rewrite Hlen. unfold py_range, sync_count. by rewrite length_seq.
Qed.

End RunRecords.

Section RunClaims.
Context {World : Type} `{Host World}.
Import SimulationRunner.

Lemma sync_count_S (n : nat) :
  sync_count (S n) = (sync_count n + if (n mod 5 =? 0)%nat then 1 else 0)%nat.
Proof.
  unfold sync_count. rewrite seq_S, filter_app, length_app. cbn [Nat.add].
  rewrite filter_cons, filter_nil.
  destruct (Nat.eqb_spec (n mod 5) 0) as [He|He].
  - by rewrite decide_True.
  - by rewrite decide_False.
Qed.

Lemma sync_count_closed (n : nat) : sync_count n = ((n + 4) / 5)%nat.
Proof.
  induction n as [|n IH]; [done|].
  rewrite sync_count_S, IH.
  destruct (Nat.eqb_spec (n mod 5) 0) as [He|He].
  - pose proof (Nat.div_mod_eq n 5). pose proof (Nat.div_mod_eq (n + 4) 5).
    pose proof (Nat.div_mod_eq (S n + 4) 5).
    pose proof (Nat.mod_upper_bound (n + 4) 5). pose proof (Nat.mod_upper_bound (S n + 4) 5).
    lia.
  - pose proof (Nat.div_mod_eq n 5). pose proof (Nat.div_mod_eq (n + 4) 5).
    pose proof (Nat.div_mod_eq (S n + 4) 5).
    pose proof (Nat.mod_upper_bound n 5).
    pose proof (Nat.mod_upper_bound (n + 4) 5). pose proof (Nat.mod_upper_bound (S n + 4) 5).
    lia.
Qed.

(** X1: on any runner, [run_scenario] keeps the records collected before,
    appends one record per cycle index 0 .. num_epochs-1 in order (none when
    num_epochs is 0 or negative), each tagged with the scenario and with
    the agent count of both variants, and leaves the runner's scenario list
    and counts as they were. *)
Theorem X1_run_scenario_appends (self : t) (sc : string) (w : World) :
  let self' := fst (run_scenario self sc w) in
  let n := Z.to_nat (num_epochs self) in
  let k := Z.to_nat (num_agents self) in
  scenarios self' = scenarios self /\
  num_agents self' = num_agents self /\
  num_epochs self' = num_epochs self /\
  exists recs,
    results self' = results self ++ recs /\
    map mr_epoch recs = seq 0 n /\
    map mr_scenario recs = replicate n sc /\
    Forall (fun rec => mr_ogi_agents rec = k /\ mr_fl_agents rec = k) recs.
Proof.
  destruct (run_scenario_records self sc w)
    as ((Hs & Hna & Hne) & recs & msgs & Hr & _ & Hall & _).
  cbv zeta. do 3 (split; [done|]). exists recs. split; [done|].
  destruct (record_ok_epochs _ _ _ _ _ Hall) as [He Hsc].
  rewrite length_seq in Hsc. do 2 (split; [done|]).
  eapply Forall_impl; [exact (record_ok_Forall _ _ _ _ _ Hall)|].
  intros rec (e & _ & _ & Ho & Hf & _). done.
Qed.

(** X2: the federated communication volume of every record that
    [run_scenario] appends is 45 times the number of federated agents (225
    with the built-in 5): the update returned by [train_epoch] has no
    [communication_mb] entry, so the runner adds the default 45 per agent
    and the cost drawn in [upload_to_server] never reaches the record. *)
Theorem X2_flower_comm_is_45_per_agent (self : t) (sc : string) (w : World) :
  exists recs,
    results (fst (run_scenario self sc w)) = results self ++ recs /\
    length recs = Z.to_nat (num_epochs self) /\
    Forall (fun rec => comm_flower_mb rec == 45 * inject_Z (Z.of_nat (Z.to_nat (num_agents self))))
           recs.
Proof.
  destruct (run_scenario_records self sc w) as (_ & recs & msgs & Hr & _ & Hall & _).
  exists recs. split; [done|]. split.
  - rewrite <- (Forall2_length _ _ _ Hall). apply length_seq.
  - eapply Forall_impl; [exact (record_ok_Forall _ _ _ _ _ Hall)|].
    intros rec (e & _ & _ & _ & _ & Hc & _). done.
Qed.

(** X3: with at least one agent per variant, every record that
    [run_scenario] appends has an independent-variant mean coherence in
    [0.60, 0.95] and a federated mean coherence in [0.40, 0.70], whatever
    the draws. *)
Theorem X3_mean_coherence_bounds (self : t) (sc : string) (w : World) :
  (1 <= num_agents self)%Z ->
  exists recs,
    results (fst (run_scenario self sc w)) = results self ++ recs /\
    length recs = Z.to_nat (num_epochs self) /\
    Forall (fun rec => 0.60 <= cci_ogi rec <= 0.95 /\ 0.40 <= cci_flower rec <= 0.70) recs.
Proof.
  intros Hna.
  destruct (run_scenario_records self sc w) as (_ & recs & msgs & Hr & _ & Hall & _).
  exists recs. split; [done|]. split.
  - rewrite <- (Forall2_length _ _ _ Hall). apply length_seq.
  - eapply Forall_impl; [exact (record_ok_Forall _ _ _ _ _ Hall)|].
    intros rec (e & _ & _ & _ & _ & _ & Ho & Hf). split; [apply Ho | apply Hf]; lia.
Qed.

(** X4: [run_scenario] keeps the log lines written before and appends two
    lines per cycle plus one supervisor line on every cycle index that is a
    multiple of 5: 2*n + (n+4)/5 lines for n cycles, which makes 44 lines
    for a scenario of the built-in runner. *)
Theorem X4_log_lines (self : t) (sc : string) (w : World) :
  let n := Z.to_nat (num_epochs self) in
  (exists msgs,
     logs (fst (run_scenario self sc w)) = logs self ++ msgs /\
     length msgs = (2 * n + (n + 4) / 5)%nat) /\
  length (logs (fst (run_scenario __init__ sc w))) = 44%nat.
Proof.
  cbv zeta. split.
  - destruct (run_scenario_records self sc w) as (_ & recs & msgs & _ & Hl & _ & Hlen).
    exists msgs. split; [done|]. by rewrite <- sync_count_closed.
  - destruct (run_scenario_records __init__ sc w) as (_ & recs & msgs & _ & Hl & _ & Hlen).
    cbv zeta in Hl, Hlen. rewrite Hl, length_app, Hlen. reflexivity.
Qed.

(** The records of the scenarios [l], run one after the other. *)
Lemma run_scenarios_records (l : list string) (self : t) (w : World) :
  let self' := fst (foldM run_scenario self l w) in
  let n := Z.to_nat (num_epochs self) in
  (scenarios self' = scenarios self /\
   num_agents self' = num_agents self /\
   num_epochs self' = num_epochs self) /\
  exists recs,
    results self' = results self ++ recs /\
    map mr_scenario recs = scenario_column l n /\
    map mr_epoch recs = epoch_column l n.
Proof.
  revert self w. induction l as [|sc l IH]; intros self w.
  - simpl. split; [done|]. exists []. by rewrite app_nil_r.
  - cbv zeta. rewrite run_scenarios_cons.
    destruct (run_scenario_records self sc w)
      as ((Hs & Hna & Hne) & recs & msgs & Hr & _ & Hall & _).
    destruct (record_ok_epochs _ _ _ _ _ Hall) as [He Hsc]. rewrite length_seq in Hsc.
    destruct (IH (fst (run_scenario self sc w)) (snd (run_scenario self sc w)))
      as ((Hs' & Hna' & Hne') & recs' & Hr' & Hsc' & He').
    cbv zeta in *. rewrite Hne in Hsc', He'.
    split; [by rewrite Hs', Hna', Hne'|].
    exists (recs ++ recs'). rewrite Hr', Hr, <- app_assoc. split; [done|].
    unfold scenario_column, epoch_column. cbn [flat_map].
    by rewrite !map_app, Hsc, He, Hsc', He'.
Qed.

(** X5: [run_full_simulation] keeps the records collected before and
    appends, scenario after scenario in the order of the runner's list, one
    record per cycle index 0 .. num_epochs-1: len(scenarios) * num_epochs
    records in all, 60 for the built-in runner; the scenario list and the
    counts are left as they were. *)
Theorem X5_full_simulation_records (self : t) (w : World) :
  let self' := fst (run_full_simulation self w) in
  let n := Z.to_nat (num_epochs self) in
  scenarios self' = scenarios self /\
  num_agents self' = num_agents self /\
  num_epochs self' = num_epochs self /\
  exists recs,
    results self' = results self ++ recs /\
    map mr_scenario recs = scenario_column (scenarios self) n /\
    map mr_epoch recs = epoch_column (scenarios self) n /\
    length recs = (length (scenarios self) * n)%nat /\
    length (results (fst (run_full_simulation __init__ w))) = 60%nat.
Proof.
  assert (Hlen : forall (l : list string) (n : nat),
             length (scenario_column l n) = (length l * n)%nat).
  { intros l n. induction l as [|s l IH]; [done|].
    unfold scenario_column in *. cbn [flat_map length]. rewrite length_app, length_replicate, IH. lia. }
  destruct (run_scenarios_records (scenarios self) self w)
    as ((Hs & Hna & Hne) & recs & Hr & Hsc & He).
  cbv zeta. unfold run_full_simulation. do 3 (split; [done|]).
  exists recs. do 3 (split; [done|]). split.
  - by rewrite <- (length_map mr_scenario), Hsc, Hlen.
  - destruct (run_scenarios_records (scenarios __init__) __init__ w)
      as (_ & recs0 & Hr0 & Hsc0 & _).
    cbv zeta in Hr0. rewrite Hr0. cbn [results __init__ app].
    by rewrite <- (length_map mr_scenario), Hsc0, Hlen.
Qed.

End RunClaims.

Section AgentsInRun.
Context {World : Type} `{Host World}.
Import SimulationRunner.

Lemma train_epoch_fields (self : FederatedAgent.t) (w : World) :
  let self' := snd (fst (FederatedAgent.train_epoch self w)) in
  FederatedAgent.agent_id self' = FederatedAgent.agent_id self /\
  FederatedAgent.scenario self' = FederatedAgent.scenario self /\
  FederatedAgent.epoch self' = S (FederatedAgent.epoch self) /\
  FederatedAgent.global_model_version self' = S (FederatedAgent.global_model_version self).
Proof.
  unfold FederatedAgent.train_epoch, FederatedAgent.local_training,
    FederatedAgent.upload_to_server.
  step_binds. cbn. repeat split; lia.
Qed.

Lemma ogi_cycles_front (n : nat) (a a' : OGIAgent.t) (w : World) :
  ogi_cycles n (snd (fst (OGIAgent.develop_epoch a w))) a' -> ogi_cycles (S n) a a'.
Proof.
  remember (snd (fst (OGIAgent.develop_epoch a w))) as a1 eqn:Ha1.
  induction 1 as [a1|n a1 mid w' _ IH].
  - subst a1. apply ogi_cycles_S, ogi_cycles_O.
  - apply ogi_cycles_S. by apply IH.
Qed.

Lemma fl_cycles_front (n : nat) (a a' : FederatedAgent.t) (w : World) :
  fl_cycles n (snd (fst (FederatedAgent.train_epoch a w))) a' -> fl_cycles (S n) a a'.
Proof.
  remember (snd (fst (FederatedAgent.train_epoch a w))) as a1 eqn:Ha1.
  induction 1 as [a1|n a1 mid w' _ IH].
  - subst a1. apply fl_cycles_S, fl_cycles_O.
  - apply fl_cycles_S. by apply IH.
Qed.

Lemma ogi_cycles_fields (n : nat) (a a' : OGIAgent.t) :
  ogi_cycles n a a' ->
  OGIAgent.agent_id a' = OGIAgent.agent_id a /\
  OGIAgent.scenario a' = OGIAgent.scenario a /\
  OGIAgent.epoch a' = (OGIAgent.epoch a + n)%nat /\
  (exists new, OGIAgent.ledger a' = OGIAgent.ledger a ++ new /\
               map OGIAgent.le_epoch new = seq (OGIAgent.epoch a) n) /\
  (bounded (OGIAgent.reasoning_frameworks a) -> bounded (OGIAgent.reasoning_frameworks a')).
Proof.
  induction 1 as [a|n a mid w _ (Hid & Hsc & He & (new & Hl & Hs) & Hb)].
  - do 2 (split; [done|]). split; [lia|].
    split; [exists []; by rewrite app_nil_r | done].
  - destruct (develop_epoch_fields mid w) as (_ & Hid' & Hsc' & He' & _ & entry & Hl' & Hent & _).
    cbv zeta in *. rewrite Hid', Hsc', He', Hl', Hid, Hsc, He, Hl.
    do 2 (split; [done|]). split; [lia|]. split.
    + exists (new ++ [entry]). split; [by rewrite app_assoc|].
      rewrite map_app, Hs, seq_S. simpl. by rewrite Hent, He.
    + intros Hba. by apply develop_epoch_bounded, Hb.
Qed.

Lemma fl_cycles_fields (n : nat) (a a' : FederatedAgent.t) :
  fl_cycles n a a' ->
  FederatedAgent.agent_id a' = FederatedAgent.agent_id a /\
  FederatedAgent.scenario a' = FederatedAgent.scenario a /\
  FederatedAgent.epoch a' = (FederatedAgent.epoch a + n)%nat /\
  FederatedAgent.global_model_version a' = (FederatedAgent.global_model_version a + n)%nat.
Proof.
  induction 1 as [a|n a mid w _ (Hid & Hsc & He & Hv)].
  - repeat split; lia.
  - destruct (train_epoch_fields mid w) as (Hid' & Hsc' & He' & Hv').
    cbv zeta in *. rewrite Hid', Hsc', He', Hv', Hid, Hsc, He, Hv. repeat split; lia.
Qed.

Lemma mapM_snd_Forall2 {A B : Type} (f : A -> M World (B * A)) (l : list A) (w : World) :
  Forall2 (fun a a' => exists w', a' = snd (fst (f a w'))) l (map snd (fst (mapM f l w))).
Proof.
  revert w. induction l as [|a l IH]; intros w; [by constructor|].
  simpl. unfold bind, ret.
  destruct (f a w) as [b w1] eqn:E. specialize (IH w1).
  destruct (mapM f l w1) as [bs w2]. cbn [fst map] in *.
  constructor; [|done]. exists w. by rewrite E.
Qed.

(** Over the cycles [l] every agent of the loop state makes [length l]
    calls of its own cycle operation and is touched by nothing else. *)
Lemma run_epochs_agents (sc : string) (l : list nat) (st : LoopState) (w : World) :
  let st' := fst (foldM (run_epoch sc) st l w) in
  Forall2 (ogi_cycles (length l)) (ogi_agents st) (ogi_agents st') /\
  Forall2 (fl_cycles (length l)) (fl_agents st) (fl_agents st').
Proof.
  revert st w. induction l as [|e l IH]; intros st w.
  - simpl. split; apply Forall2_same_length_lookup_2; try done;
      intros i x y Hx Hy; rewrite Hx in Hy; injection Hy as <-; constructor.
  - simpl foldM. unfold bind.
    destruct (run_epoch_unfold sc st e w) as (msgs & _ & Hrun). cbv zeta in Hrun.
    rewrite Hrun. cbn [fst snd].
    match goal with |- context [foldM _ ?st1 l ?w1] =>
      destruct (IH st1 w1) as [IHo IHf] end.
    cbn [ogi_agents fl_agents] in IHo, IHf. cbv zeta. split.
    + pose proof (mapM_snd_Forall2 OGIAgent.develop_epoch (ogi_agents st) w) as Ho1.
      eapply Forall2_trans; [|exact Ho1|exact IHo].
      intros a a1 a' [w' ->] Hc. by eapply ogi_cycles_front.
    + match type of IHf with Forall2 _ (map snd (fst (mapM _ _ ?w1))) _ =>
        pose proof (mapM_snd_Forall2 FederatedAgent.train_epoch (fl_agents st) w1) as Hf1 end.
      eapply Forall2_trans; [|exact Hf1|exact IHf].
      intros a a1 a' [w' ->] Hc. by eapply fl_cycles_front.
Qed.

End AgentsInRun.

Section AgentsInRunClaims.
Context {World : Type} `{Host World}.
Import SimulationRunner.

(** X6: when the loop of [run_scenario] ends after n cycles with k agents
    per variant, the k independent-development agents are still the agents
    created at the start, in order ([ogi_0], [ogi_1], ...), each with the
    scenario tag, a cycle counter of n, a ledger whose cycle indices are
    0..n-1 and strengths within [0.5, 0.95]: the runner's loop, the
    Synchronizer and the metric calls change nothing but through the n
    calls of [develop_epoch]. *)
Theorem X6_ogi_agents_after_run (self : t) (sc : string) (w : World) (i : nat) (a : OGIAgent.t) :
  let st := fst (final_state self sc w) in
  let n := Z.to_nat (num_epochs self) in
  run_scenario self sc w = (runner st, snd (final_state self sc w)) /\
  length (ogi_agents st) = Z.to_nat (num_agents self) /\
  (ogi_agents st !! i = Some a ->
   OGIAgent.agent_id a = "ogi_" +:+ pretty i /\
   OGIAgent.scenario a = sc /\
   OGIAgent.epoch a = n /\
   map OGIAgent.le_epoch (OGIAgent.ledger a) = seq 0 n /\
   bounded (OGIAgent.reasoning_frameworks a)).
Proof.
  cbv zeta. split; [apply run_scenario_final|].
  unfold final_state.
  destruct (run_epochs_agents sc (py_range (num_epochs self)) (initial_state self sc) w)
    as [Ho _].
  cbv zeta in Ho. split.
  - rewrite <- (Forall2_length _ _ _ Ho). apply initial_state_lengths.
  - intros Ha. destruct (Forall2_lookup_r _ _ _ _ _ Ho Ha) as (a0 & Ha0 & Hc).
    unfold initial_state in Ha0. cbn [ogi_agents] in Ha0.
    apply list_lookup_fmap_Some in Ha0 as (j & -> & Hj).
    unfold py_range in Hj. apply lookup_seq in Hj as [-> _].
    destruct (ogi_cycles_fields _ _ _ Hc) as (Hid & Hsc & He & (new & Hl & Hs) & Hb).
    unfold py_range in He, Hs. rewrite length_seq in He, Hs.
    cbn in Hid, Hsc, He, Hl, Hs. rewrite Hid, Hsc, He, Hl.
    do 4 (split; [done|]). apply Hb, map_Forall_empty.
Qed.

(** X7: [train_epoch] raises the cycle counter and the global model version
    by one each and leaves the identifier and the scenario tag, so after k
    calls on a fresh agent both are k; and when the loop of [run_scenario]
    ends after n cycles, every federated agent is the agent created at the
    start ([fl_0], [fl_1], ...) with counter and version n. *)
Theorem X7_federated_version_follows_epoch
    (agent_id scenario : string) (k : nat) (self : t) (sc : string) (w : World)
    (i : nat) (b : FederatedAgent.t) :
  let trained := fst (train_epochs k (FederatedAgent.__init__ agent_id scenario) w) in
  let st := fst (final_state self sc w) in
  let n := Z.to_nat (num_epochs self) in
  (FederatedAgent.epoch trained = k /\
   FederatedAgent.global_model_version trained = k /\
   FederatedAgent.agent_id trained = agent_id /\
   FederatedAgent.scenario trained = scenario) /\
  length (fl_agents st) = Z.to_nat (num_agents self) /\
  (fl_agents st !! i = Some b ->
   FederatedAgent.agent_id b = "fl_" +:+ pretty i /\
   FederatedAgent.scenario b = sc /\
   FederatedAgent.epoch b = n /\
   FederatedAgent.global_model_version b = n).
Proof.
  cbv zeta. split; [|split].
  - assert (Hgen : forall (a0 : FederatedAgent.t) (w0 : World),
               fl_cycles k a0 (fst (train_epochs k a0 w0))).
    { induction k as [|k IH]; intros a0 w0; [constructor|].
      simpl. unfold bind.
      destruct (FederatedAgent.train_epoch a0 w0) as [[u a1] w1] eqn:E. cbn [snd].
      apply (fl_cycles_front k a0 _ w0). rewrite E. apply IH. }
    destruct (fl_cycles_fields _ _ _ (Hgen (FederatedAgent.__init__ agent_id scenario) w))
      as (Hid & Hsc & He & Hv).
    by rewrite Hid, Hsc, He, Hv.
  - unfold final_state.
    destruct (run_epochs_agents sc (py_range (num_epochs self)) (initial_state self sc) w)
      as [_ Hf].
    cbv zeta in Hf. rewrite <- (Forall2_length _ _ _ Hf). apply initial_state_lengths.
  - intros Hb. unfold final_state in Hb.
    destruct (run_epochs_agents sc (py_range (num_epochs self)) (initial_state self sc) w)
      as [_ Hf].
    cbv zeta in Hf.
    destruct (Forall2_lookup_r _ _ _ _ _ Hf Hb) as (b0 & Hb0 & Hc).
    unfold initial_state in Hb0. cbn [fl_agents] in Hb0.
    apply list_lookup_fmap_Some in Hb0 as (j & -> & Hj).
    unfold py_range in Hj. apply lookup_seq in Hj as [-> _].
    destruct (fl_cycles_fields _ _ _ Hc) as (Hid & Hsc & He & Hv).
    unfold py_range in He, Hv. rewrite length_seq in He, Hv.
    cbn in Hid, Hsc, He, Hv. by rewrite Hid, Hsc, He, Hv.
Qed.

End AgentsInRunClaims.

Section AgentLifeClaims.
Context {World : Type} `{Host World}.
Import OGIAgent.

Lemma develop_epoch_target (self : t) (w : World) :
  h_target (hypothesis (fst (fst (develop_epoch self w)))) =
  fst (random_choice framework_names w).
Proof.
  unfold develop_epoch, generate_hypothesis, test_hypothesis, record_to_ledger, framework_names.
  by step_binds.
Qed.

(** X8: if the generator's [choice] returns an element of the list it is
    given, then after any number of [develop_epoch] calls on a fresh agent
    every framework in the mapping is one of [pattern_recognition],
    [causal_inference] and [uncertainty_handling], so the mapping has at
    most three entries. *)
Theorem X8_framework_names (agent_id scenario : string) (k : nat) (w : World) :
  choice_in_list ->
  let fw := reasoning_frameworks (fst (develop_epochs k (__init__ agent_id scenario) w)) in
  (forall f, is_Some (fw !! f) -> f ∈ framework_names) /\
  (size fw <= 3)%nat.
Proof.
  intros Hch. cbv zeta.
  assert (Hdom : dom (reasoning_frameworks (fst (develop_epochs k (__init__ agent_id scenario) w)))
                 ⊆ (list_to_set framework_names : gset string)).
  { induction k as [|k IH].
    - simpl. set_solver.
    - rewrite develop_epochs_S. cbv zeta. cbn [fst snd].
      rewrite develop_epoch_frameworks. cbv zeta.
      destruct (Qltb 0.75 _); [|exact IH].
      rewrite dom_insert. rewrite develop_epoch_target.
      assert (Hin : fst (random_choice framework_names
                           (snd (develop_epochs k (__init__ agent_id scenario) w)))
                    ∈ framework_names) by (by apply Hch).
      apply union_subseteq. split; [|exact IH].
      apply singleton_subseteq_l. by apply elem_of_list_to_set. }
  split.
  - intros f Hf. apply elem_of_dom in Hf. apply Hdom in Hf. by apply elem_of_list_to_set in Hf.
  - rewrite <- size_dom. etrans; [apply subseteq_size, Hdom|]. by vm_compute.
Qed.

(** X9: a strength that has reached 0.95 stays at 0.95: if after k calls
    on a fresh agent a framework stands at 0.95 or more, then after any
    further j calls it is still in the mapping with a value equal to 0.95. *)
Theorem X9_saturated_strength_stays (agent_id scenario : string) (k j : nat) (w : World)
    (f : string) (v : Q) :
  reasoning_frameworks (fst (develop_epochs k (__init__ agent_id scenario) w)) !! f = Some v ->
  0.95 <= v ->
  exists v', reasoning_frameworks (fst (develop_epochs (k + j) (__init__ agent_id scenario) w)) !! f
             = Some v' /\ v' == 0.95.
Proof.
  intros Hf Hv.
  assert (Hb : bounded (reasoning_frameworks (fst (develop_epochs k (__init__ agent_id scenario) w)))).
  { apply develop_epochs_bounded, map_Forall_empty. }
  rewrite develop_epochs_add.
  destruct (develop_epochs_grows j _ (snd (develop_epochs k (__init__ agent_id scenario) w)) Hb f v Hf)
    as (v' & Hf' & Hle).
  exists v'. split; [done|].
  apply (develop_epochs_bounded j _ (snd (develop_epochs k (__init__ agent_id scenario) w))) in Hb.
  apply Hb in Hf' as [_ Hhi]. lra.
Qed.

Lemma validated_entries_app (l : list LedgerEntry) (entry : LedgerEntry) :
  validated_entries (l ++ [entry]) =
  (validated_entries l + if le_validation entry then 1 else 0)%nat.
Proof.
  unfold validated_entries. rewrite filter_app, length_app, filter_cons, filter_nil.
  destruct (le_validation entry).
  - by rewrite decide_True.
  - by rewrite decide_False.
Qed.

(** X10: the mapping and the ledger of an agent tell the same story.
    After any number of [develop_epoch] calls on a fresh agent the mapping
    is empty exactly when no ledger entry is validated, and it never has
    more entries than the ledger has validated ones. *)
Theorem X10_mapping_backed_by_ledger (agent_id scenario : string) (k : nat) (w : World) :
  let a := fst (develop_epochs k (__init__ agent_id scenario) w) in
  (reasoning_frameworks a = ∅ <-> validated_entries (ledger a) = 0%nat) /\
  (size (reasoning_frameworks a) <= validated_entries (ledger a))%nat /\
  (validated_entries (ledger a) <= epoch a)%nat.
Proof.
  cbv zeta. induction k as [|k (IHe & IHs & IHk)].
  - simpl. repeat split; try done.
  - rewrite develop_epochs_S. cbv zeta. cbn [fst snd].
    set (mid := fst (develop_epochs k (__init__ agent_id scenario) w)) in *.
    set (wm := snd (develop_epochs k (__init__ agent_id scenario) w)) in *.
    destruct (develop_epoch_fields mid wm) as (Hv & _ & _ & He & _ & entry & Hl & _ & Hent).
    pose proof (develop_epoch_frameworks mid wm) as Hfw.
    cbv zeta in Hv, He, Hl, Hent, Hfw. rewrite <- Hv in Hfw.
    rewrite Hl, He, validated_entries_app, Hent, Hfw.
    destruct (validation_passed _).
    + split; [|split].
      * split; [intros Hemp; by apply insert_non_empty in Hemp | lia].
      * destruct (reasoning_frameworks mid !! h_target (hypothesis (fst (fst (develop_epoch mid wm)))))
          as [v0|] eqn:Hlook.
        -- rewrite map_size_insert_Some by done. lia.
        -- rewrite map_size_insert_None by done. lia.
      * lia.
    + rewrite Nat.add_0_r. split; [done|]. split; [done|lia].
Qed.

End AgentLifeClaims.

(** * The medical example *)

Section MedicalFacts.
Import MedicalDiagnosticAgent.

Lemma py_min_noclamp (x : Q) : x <= 0.95 -> py_min 0.95 x == x.
Proof. intros Hx. destruct (py_min_cases 0.95 x) as [[? ->]|[? ->]]; lra. Qed.

Lemma nudge_between (lo hi a b : Q) :
  hi <= 0.95 -> lo <= a <= hi -> lo <= b <= hi -> lo <= nudge a b <= hi.
Proof.
  intros Hhi Ha Hb. unfold nudge.
  destruct (py_min_cases 0.95 (a + 0.02 * (b - a))) as [[? ->]|[? ->]]; lra.
Qed.

Lemma nudge_noclamp (a b : Q) :
  a <= 0.95 -> b <= 0.95 -> nudge a b == 0.98 * a + 0.02 * b.
Proof. intros Ha Hb. unfold nudge. rewrite py_min_noclamp; lra. Qed.

(** The entries of one insight, applied to the frameworks of a hospital:
    every framework of the hospital stays, nudged once when the insight has
    it. *)
Lemma learn_from_lookup (ins own : gmap string Q) (k : string) :
  learn_from ins own !! k =
  match own !! k with
  | Some a => Some (match ins !! k with Some b => nudge a b | None => a end)
  | None => None
  end.
Proof.
  unfold learn_from. revert k.
  apply (map_fold_weak_ind
    (fun r m => forall k, r !! k = match own !! k with
                                    | Some a => Some (match m !! k with
                                                      | Some b => nudge a b
                                                      | None => a
                                                      end)
                                    | None => None
                                    end)).
  - intros k. rewrite lookup_empty. by destruct (own !! k).
  - intros i x m r Hi IH k.
    destruct (decide (i = k)) as [<-|Hne].
    + specialize (IH i). rewrite Hi in IH. rewrite lookup_insert_eq.
      destruct (own !! i) as [a|] eqn:Hown.
      * rewrite decide_True by (apply elem_of_dom; eauto).
        rewrite lookup_insert_eq. unfold OGIAgent.getitem. rewrite IH. done.
      * rewrite decide_False by (by apply not_elem_of_dom). done.
    + rewrite (lookup_insert_ne m) by done. rewrite <- IH.
      destruct (decide (i ∈ dom r)); [by rewrite lookup_insert_ne|done].
Qed.

Lemma learn_from_insights_rest (insights : list Insight) (h : t) :
  base (learn_from_insights insights h) = base h /\
  hospital_id (learn_from_insights insights h) = hospital_id h /\
  patient_population (learn_from_insights insights h) = patient_population h /\
  case_history (learn_from_insights insights h) = case_history h.
Proof.
  unfold learn_from_insights. revert h. induction insights as [|ins l IH]; intros h; [done|].
  cbn [fold_left]. destruct (decide (ins_hospital_id ins <> hospital_id h)); [|apply IH].
  destruct (IH (set_diagnostic_frameworks h
                  (learn_from (ins_diagnostic_frameworks ins) (diagnostic_frameworks h))))
    as (-> & -> & -> & ->). done.
Qed.

Lemma peer_strengths_cons (p : t) (l : list t) (id : Z) (k : string) :
  peer_strengths (p :: l) id k =
  match (if decide (hospital_id p <> id) then diagnostic_frameworks p !! k else None) with
  | Some b => b :: peer_strengths l id k
  | None => peer_strengths l id k
  end.
Proof. reflexivity. Qed.

Lemma learn_from_insights_lookup (hospitals : list t) (h : t) (k : string) :
  diagnostic_frameworks (learn_from_insights (map extract_diagnostic_insights hospitals) h) !! k
  = (fun a => fold_left nudge (peer_strengths hospitals (hospital_id h) k) a)
      <$> (diagnostic_frameworks h !! k).
Proof.
  unfold learn_from_insights. revert h. induction hospitals as [|p l IH]; intros h.
  - cbn. by destruct (diagnostic_frameworks h !! k).
  - rewrite peer_strengths_cons.
    cbn [map fold_left extract_diagnostic_insights ins_hospital_id ins_diagnostic_frameworks].
    destruct (decide (hospital_id p <> hospital_id h)) as [Hne|Heq].
    + rewrite IH. cbn [hospital_id set_diagnostic_frameworks diagnostic_frameworks].
      rewrite learn_from_lookup.
      destruct (diagnostic_frameworks h !! k) as [a|]; [|by destruct (diagnostic_frameworks p !! k)].
      by destruct (diagnostic_frameworks p !! k).
    + by rewrite IH.
Qed.

End MedicalFacts.

Section SharingClaims.
Import MedicalDiagnosticAgent.

Lemma fold_nudge_between (lo hi : Q) (peers : list Q) (a : Q) :
  hi <= 0.95 -> lo <= a <= hi -> Forall (fun b => lo <= b <= hi) peers ->
  lo <= fold_left nudge peers a <= hi.
Proof.
  intros Hhi Ha Hall. revert a Ha. induction Hall as [|b peers Hb _ IH]; intros a Ha; [done|].
  cbn [fold_left]. apply IH. by apply nudge_between.
Qed.

Lemma peer_strengths_Forall (P : Q -> Prop) (hospitals : list t) (id : Z) (k : string) :
  (forall h v, h ∈ hospitals -> diagnostic_frameworks h !! k = Some v -> P v) ->
  Forall P (peer_strengths hospitals id k).
Proof.
  induction hospitals as [|p l IH]; intros Hall; [constructor|].
  rewrite peer_strengths_cons.
  assert (Hl : Forall P (peer_strengths l id k)).
  { apply IH. intros h v Hh. apply Hall. by right. }
  destruct (decide (hospital_id p <> id)); [|done].
  destruct (diagnostic_frameworks p !! k) as [b|] eqn:Hb; [|done].
  constructor; [|done]. apply (Hall p); [by left|done].
Qed.


(** X12: two hospitals with different identifiers that both hold a
    framework each move toward the strength the other had before the
    sharing: the second hospital does not see the first one's update.  Two
    hospitals with the same identifier leave each other as they are. *)
Theorem X12_share_reads_pre_sharing_values (ha hb : t) (k : string) (a b : Q) :
  diagnostic_frameworks ha !! k = Some a ->
  diagnostic_frameworks hb !! k = Some b ->
  (hospital_id ha <> hospital_id hb ->
   map (fun h => diagnostic_frameworks h !! k) (share_medical_knowledge [ha; hb])
   = [Some (nudge a b); Some (nudge b a)]) /\
  (hospital_id ha = hospital_id hb ->
   map (fun h => diagnostic_frameworks h !! k) (share_medical_knowledge [ha; hb])
   = [Some a; Some b]).
Proof.
  intros Ha Hb. unfold share_medical_knowledge. cbn [map].
  rewrite !(learn_from_insights_lookup [ha; hb]), Ha, Hb.
  rewrite !peer_strengths_cons. cbn [peer_strengths omap].
  split; intros Hid.
  - repeat case_decide; try congruence. by rewrite Ha, Hb.
  - repeat case_decide; try congruence. done.
Qed.


(** X14: the result of sharing depends on the order of the peers.  A
    hospital with strength a that learns from two peers with strengths b1
    and b2 (identifiers distinct, all strengths in [0.1, 0.95]) ends with
    nudge (nudge a b1) b2 when the peers come in the order b1, b2 and with
    nudge (nudge a b2) b1 in the other order, so the later peer weighs
    more: the two results are equal when b1 and b2 are, and when one peer
    is ahead of the other by 0.001 or more, the order in which it comes
    last gives the strictly larger result. *)
Theorem X14_share_depends_on_peer_order (h p1 p2 : t) (k : string) (a b1 b2 : Q) :
  hospital_id p1 <> hospital_id h ->
  hospital_id p2 <> hospital_id h ->
  diagnostic_frameworks h !! k = Some a ->
  diagnostic_frameworks p1 !! k = Some b1 ->
  diagnostic_frameworks p2 !! k = Some b2 ->
  0.1 <= a <= 0.95 -> 0.1 <= b1 <= 0.95 -> 0.1 <= b2 <= 0.95 ->
  exists v12 v21,
    (share_medical_knowledge [h; p1; p2] !! 0%nat) ≫= (fun h' => diagnostic_frameworks h' !! k)
      = Some v12 /\
    (share_medical_knowledge [h; p2; p1] !! 0%nat) ≫= (fun h' => diagnostic_frameworks h' !! k)
      = Some v21 /\
    v12 = nudge (nudge a b1) b2 /\
    v21 = nudge (nudge a b2) b1 /\
    (b1 == b2 -> v12 == v21) /\
    (b2 + 0.001 <= b1 -> v12 < v21) /\
    (b1 + 0.001 <= b2 -> v21 < v12).
Proof.
  intros Hn1 Hn2 Ha Hb1 Hb2 [_ Hale] [_ Hb1le] [_ Hb2le].
  exists (nudge (nudge a b1) b2), (nudge (nudge a b2) b1).
  assert (Hs : forall l, share_medical_knowledge (h :: l) !! 0%nat
                         = Some (learn_from_insights (map extract_diagnostic_insights (h :: l)) h))
    by done.
  rewrite !Hs. cbn [mbind option_bind].
  rewrite !learn_from_insights_lookup, Ha.
  rewrite !peer_strengths_cons. cbn [peer_strengths omap].
  repeat case_decide; try congruence. rewrite Hb1, Hb2. cbn.
  do 4 (split; [done|]).
  pose proof (nudge_noclamp a b1 Hale Hb1le) as E1.
  pose proof (nudge_noclamp a b2 Hale Hb2le) as E2.
  assert (Hle1 : nudge a b1 <= 0.95) by (rewrite E1; lra).
  assert (Hle2 : nudge a b2 <= 0.95) by (rewrite E2; lra).
  pose proof (nudge_noclamp (nudge a b1) b2 Hle1 Hb2le) as E12.
  pose proof (nudge_noclamp (nudge a b2) b1 Hle2 Hb1le) as E21.
  rewrite E12, E21, E1, E2. split; [|split]; intros Heq; lra.
Qed.

End SharingClaims.

Section HospitalClaims.
Import MedicalDiagnosticAgent.

Lemma initial_frameworks_range :
  map_Forall (fun _ v => 0.4 <= v <= 0.6) initial_frameworks.
Proof.
  unfold initial_frameworks, __init__. cbn [diagnostic_frameworks].
  repeat (apply map_Forall_insert_2; [lra|]). apply map_Forall_empty.
Qed.

Lemma general_not_initial : "general" ∉ dom initial_frameworks.
Proof.
  apply not_elem_of_dom. by vm_compute.
Qed.

Lemma pattern_recognition_initial :
  initial_frameworks !! "symptom_pattern_recognition" = Some 0.6.
Proof. unfold initial_frameworks, __init__. cbn [diagnostic_frameworks]. apply lookup_insert_eq. Qed.

Lemma process_patient_case_frameworks (self : t) (symptoms : list string)
    (demographics : Demographics) (outcome : option Outcome) :
  diagnostic_frameworks (snd (process_patient_case self symptoms demographics outcome)) =
  match outcome with
  | Some o =>
      diagnostic_frameworks
        (integrate_diagnostic_learning self
           (validate_diagnosis self (generate_diagnostic_hypothesis self symptoms demographics) o))
  | None => diagnostic_frameworks self
  end.
Proof. unfold process_patient_case. by destruct outcome. Qed.

(** X15: a correct diagnosis teaches nothing.  The validation result
    carries no [framework_used] entry, so [integrate_diagnostic_learning]
    looks for a framework named [general]; a hospital has none (the five
    frameworks of [__init__] do not include it), and a case whose
    hypothesis matches the outcome's diagnosis leaves every diagnostic
    strength as it was. *)
Theorem X15_correct_diagnosis_teaches_nothing (self : t) (symptoms : list string)
    (demographics : Demographics) (o : Outcome) :
  "general" ∉ dom (diagnostic_frameworks self) ->
  primary_diagnosis (generate_diagnostic_hypothesis self symptoms demographics) = diagnosis o ->
  diagnostic_frameworks (snd (process_patient_case self symptoms demographics (Some o)))
  = diagnostic_frameworks self /\
  "general" ∉ dom (diagnostic_frameworks (__init__ (hospital_id self) (patient_population self))).
Proof.
  intros Hgen Hcorrect. split; [|apply general_not_initial].
  rewrite process_patient_case_frameworks.
  unfold integrate_diagnostic_learning, validate_diagnosis. cbn [correct].
  rewrite bool_decide_eq_true_2 by done.
  unfold get_framework_used. by rewrite decide_False.
Qed.


Lemma learn_from_insights_dom (hospitals : list t) (h : t) :
  dom (diagnostic_frameworks (learn_from_insights (map extract_diagnostic_insights hospitals) h))
  = dom (diagnostic_frameworks h).
Proof.
  apply set_eq. intros k. rewrite !elem_of_dom, learn_from_insights_lookup.
  by rewrite fmap_is_Some.
Qed.

Lemma integrate_diagnostic_learning_dom (self : t) (vr : ValidationResult) :
  dom (diagnostic_frameworks (integrate_diagnostic_learning self vr))
  = dom (diagnostic_frameworks self).
Proof.
  unfold integrate_diagnostic_learning. destruct (correct vr).
  - case_decide as Hin; [|done]. cbn [set_diagnostic_frameworks diagnostic_frameworks].
    apply dom_insert_lookup_L. by apply elem_of_dom.
  - cbn [set_diagnostic_frameworks diagnostic_frameworks]. apply dom_fmap_L.
Qed.

(** X17: the set of diagnostic frameworks of a hospital is fixed at
    construction: [__init__] gives the five frameworks, and neither
    [process_patient_case] (with or without outcome) nor
    [share_medical_knowledge] adds or removes a key. *)
Theorem X17_framework_keys_fixed (self : t) (symptoms : list string)
    (demographics : Demographics) (outcome : option Outcome)
    (hospitals : list t) (i : nat) (h h' : t) :
  dom (diagnostic_frameworks (__init__ (hospital_id self) (patient_population self)))
  = ({["symptom_pattern_recognition"; "risk_factor_assessment"; "differential_diagnosis";
       "rare_disease_detection"; "treatment_response_prediction"]} : gset string) /\
  dom (diagnostic_frameworks (snd (process_patient_case self symptoms demographics outcome)))
  = dom (diagnostic_frameworks self) /\
  (hospitals !! i = Some h -> share_medical_knowledge hospitals !! i = Some h' ->
   dom (diagnostic_frameworks h') = dom (diagnostic_frameworks h)).
Proof.
  split; [|split].
  - by vm_compute.
  - rewrite process_patient_case_frameworks. destruct outcome; [|done].
    apply integrate_diagnostic_learning_dom.
  - intros Hh Hh'. unfold share_medical_knowledge in Hh'.
    rewrite list_lookup_fmap, Hh in Hh'. injection Hh' as <-.
    apply learn_from_insights_dom.
Qed.

End HospitalClaims.

Section StrengthsNeverRise.
Import MedicalDiagnosticAgent.

Lemma within_initial_init (id : Z) (population : string) : within_initial (__init__ id population).
Proof.
  split; [done|]. intros k v v0 Hk Hk0.
  change (diagnostic_frameworks (__init__ id population)) with initial_frameworks in Hk.
  rewrite Hk in Hk0. injection Hk0 as <-.
  apply initial_frameworks_range in Hk. lra.
Qed.

Lemma hypothesis_confidence_range (self : t) (symptoms : list string) (demographics : Demographics) :
  within_initial self ->
  0 <= dh_confidence (generate_diagnostic_hypothesis self symptoms demographics) <= 0.6.
Proof.
  intros [Hdom Hval].
  assert (Hs : exists v, diagnostic_frameworks self !! "symptom_pattern_recognition" = Some v).
  { apply elem_of_dom. rewrite Hdom. apply elem_of_dom. rewrite pattern_recognition_initial. eauto. }
  destruct Hs as [v Hv].
  pose proof (Hval _ _ _ Hv pattern_recognition_initial) as Hr.
  unfold generate_diagnostic_hypothesis, OGIAgent.getitem. rewrite Hv. cbn [default].
  destruct (_ && _); [destruct (60 <? age demographics)%Z|]; cbn [dh_confidence];
    unfold id; lra.
Qed.

Lemma process_patient_case_within (self : t) (symptoms : list string)
    (demographics : Demographics) (outcome : option Outcome) :
  within_initial self ->
  (forall o, outcome = Some o -> 0 <= certainty o <= 1) ->
  within_initial (snd (process_patient_case self symptoms demographics outcome)).
Proof.
  intros Hin Hcert. pose proof Hin as [Hdom Hval].
  unfold within_initial. rewrite process_patient_case_frameworks.
  destruct outcome as [o|]; [|done].
  rewrite integrate_diagnostic_learning_dom. split; [done|].
  intros k v' v0 Hk Hk0.
  pose proof (hypothesis_confidence_range self symptoms demographics Hin) as Hconf.
  specialize (Hcert o eq_refl).
  unfold integrate_diagnostic_learning, validate_diagnosis in Hk.
  cbn [correct confidence_error learning_value] in Hk.
  destruct (bool_decide _).
  - unfold get_framework_used in Hk. rewrite decide_False in Hk.
    + by apply (Hval k).
    + rewrite Hdom. apply general_not_initial.
  - cbn [set_diagnostic_frameworks diagnostic_frameworks] in Hk.
    rewrite lookup_fmap in Hk. apply fmap_Some in Hk as (v & Hv & ->).
    pose proof (Hval _ _ _ Hv Hk0) as Hr.
    cbv zeta. match goal with |- context [Qabs ?x] => set (err := Qabs x) end.
    assert (Herr : err <= 1).
    { subst err. apply Qabs_Qle_condition. split; lra. }
    split; [apply py_max_ge_l|].
    destruct (py_max_cases 0.1 (v + - 0.01 * (1 - err))) as [[_ ->]|[_ ->]]; lra.
Qed.

Lemma share_within (hospitals : list t) :
  Forall within_initial hospitals -> Forall within_initial (share_medical_knowledge hospitals).
Proof.
  intros Hall. unfold share_medical_knowledge. apply Forall_fmap, Forall_forall.
  intros h Hh. pose proof (proj1 (Forall_forall _ _) Hall h Hh) as [Hdom Hval].
  split; [by rewrite learn_from_insights_dom|].
  intros k v' v0 Hk Hk0. rewrite learn_from_insights_lookup in Hk.
  destruct (diagnostic_frameworks h !! k) as [a|] eqn:Ha; [|done].
  cbn [fmap option_fmap option_map] in Hk. injection Hk as <-.
  pose proof (initial_frameworks_range _ _ Hk0) as Hv0. cbv beta in Hv0.
  apply fold_nudge_between; [lra|by apply (Hval k)|].
  apply peer_strengths_Forall. intros p v Hp Hv.
  destruct (proj1 (Forall_forall _ _) Hall p Hp) as [_ Hvalp]. by apply (Hvalp k).
Qed.

(** X18: a diagnostic strength never rises above its initial value.  A
    hospital starts with its five frameworks at their initial strengths;
    processing a case whose outcome has a certainty in [0, 1] (or no
    outcome) and sharing among hospitals that are all in that state both
    keep every hospital with the same five frameworks, each at a strength
    between 0.1 and the initial strength of that framework. *)
Theorem X18_strengths_never_rise (id : Z) (population : string)
    (self : t) (symptoms : list string) (demographics : Demographics) (outcome : option Outcome)
    (hospitals : list t) :
  within_initial (__init__ id population) /\
  (within_initial self -> (forall o, outcome = Some o -> 0 <= certainty o <= 1) ->
   within_initial (snd (process_patient_case self symptoms demographics outcome))) /\
  (Forall within_initial hospitals -> Forall within_initial (share_medical_knowledge hospitals)).
Proof.
  split; [apply within_initial_init|]. split.
  - apply process_patient_case_within.
  - apply share_within.
Qed.




End StrengthsNeverRise.

Section MedicalSimulationClaims.
Context {World : Type} `{Host World} `{CaseChoice World}.
Import MedicalDiagnosticAgent.

Lemma synthetic_certainty (c : SyntheticCase) :
  c ∈ generate_synthetic_cases -> 0 <= certainty (sc_outcome c) <= 1.
Proof.
  unfold generate_synthetic_cases. rewrite !elem_of_cons, elem_of_nil.
  intros [->|[->|[->|[->|[->|[]]]]]]; cbn; lra.
Qed.

Lemma process_patient_case_rest (self : t) (symptoms : list string)
    (demographics : Demographics) (outcome : option Outcome) :
  let self' := snd (process_patient_case self symptoms demographics outcome) in
  base self' = base self /\ hospital_id self' = hospital_id self /\
  patient_population self' = patient_population self /\
  length (case_history self') = S (length (case_history self)).
Proof.
  unfold process_patient_case. destruct outcome as [o|]; cbn.
  - unfold integrate_diagnostic_learning. destruct (correct _); [case_decide|];
      cbn; rewrite length_app; cbn; repeat split; lia.
  - rewrite length_app. cbn. repeat split; lia.
Qed.

Lemma foldM_preserves {A S : Type} (f : S -> A -> M World S) (R : S -> S -> Prop) :
  (forall s, R s s) ->
  (forall s1 s2 s3, R s1 s2 -> R s2 s3 -> R s1 s3) ->
  (forall s a w, R s (fst (f s a w))) ->
  forall l s w, R s (fst (foldM f s l w)).
Proof.
  intros Hrefl Htrans Hstep. induction l as [|a l IH]; intros s w; [apply Hrefl|].
  cbn [foldM]. unfold bind. specialize (Hstep s a w).
  destruct (f s a w) as [s1 w1]. eapply Htrans; [exact Hstep|apply IH].
Qed.

Lemma process_cases_facts (cases : list SyntheticCase) (n : Z) (h : t) (w : World) :
  case_choice_in_list -> cases <> [] ->
  (forall c, c ∈ cases -> 0 <= certainty (sc_outcome c) <= 1) ->
  let h' := fst (process_cases cases h n w) in
  base h' = base h /\ hospital_id h' = hospital_id h /\
  (within_initial h -> within_initial h').
Proof.
  intros Hch Hne Hcert. unfold process_cases.
  apply (foldM_preserves _
           (fun h h' => base h' = base h /\ hospital_id h' = hospital_id h /\
                        (within_initial h -> within_initial h'))).
  - done.
  - intros h1 h2 h3 (Hb & Hid & Hw) (Hb' & Hid' & Hw').
    rewrite Hb', Hb, Hid', Hid. auto.
  - intros h0 _ w0. unfold bind, ret.
    pose proof (Hch cases w0 Hne) as Hin.
    destruct (random_choice_case cases w0) as [c w1]. cbn [fst] in *.
    destruct (process_patient_case_rest h0 (sc_symptoms c) (sc_demographics c)
                (Some (sc_outcome c))) as (Hb' & Hid' & _).
    cbv zeta in *. do 2 (split; [done|]).
    intros Hwi. apply process_patient_case_within; [done|].
    intros o [= <-]. by apply Hcert.
Qed.

Lemma hospital_epoch_step (cases : list SyntheticCase) (h : t) (w : World) :
  case_choice_in_list -> cases <> [] ->
  (forall c, c ∈ cases -> 0 <= certainty (sc_outcome c) <= 1) ->
  hospital_step h (fst (hospital_epoch cases h w)).
Proof.
  intros Hch Hne Hcert. unfold hospital_epoch.
  unfold bind at 1. destruct (random_randint 2 5 w) as [n w1].
  unfold bind at 1.
  destruct (process_cases_facts cases n h w1 Hch Hne Hcert) as (Hb & Hid & Hw).
  cbv zeta in Hb, Hid, Hw.
  destruct (process_cases cases h n w1) as [h1 w2]. cbn [fst] in Hb, Hid, Hw.
  unfold MedicalDiagnosticAgent.develop_epoch, bind, ret.
  destruct (develop_epoch_fields (base h1) w2) as (_ & _ & _ & He & _ & entry & Hl & _).
  cbv zeta in He, Hl.
  destruct (OGIAgent.develop_epoch (base h1) w2) as [[result b'] w3]. cbn [fst snd] in *.
  unfold hospital_step. cbn [hospital_id base]. rewrite He, Hl, Hb, length_app. cbn [length].
  split; [done|]. split; [done|]. split; [lia|].
  intros Hwi. specialize (Hw Hwi). destruct Hw as [Hd Hv]. split; done.
Qed.

Lemma share_rest (hospitals : list t) :
  Forall2 (fun h h' => hospital_id h' = hospital_id h /\ base h' = base h)
          hospitals (share_medical_knowledge hospitals).
Proof.
  unfold share_medical_knowledge. apply Forall2_fmap_r, Forall_Forall2_diag, Forall_forall.
  intros h _.
  destruct (learn_from_insights_rest (map extract_diagnostic_insights hospitals) h)
    as (Hb & Hid & _).
  split; [exact Hid | exact Hb].
Qed.

(** The hospitals after the epochs [l]. *)
Lemma simulation_epochs_facts (cases : list SyntheticCase) (l : list nat)
    (hospitals : list t) (w : World) :
  case_choice_in_list -> cases <> [] ->
  (forall c, c ∈ cases -> 0 <= certainty (sc_outcome c) <= 1) ->
  let hospitals' := fst (foldM (simulation_epoch cases) hospitals l w) in
  Forall2 (fun h h' =>
             hospital_id h' = hospital_id h /\
             OGIAgent.epoch (base h') = (OGIAgent.epoch (base h) + length l)%nat /\
             length (OGIAgent.ledger (base h')) = (length (OGIAgent.ledger (base h)) + length l)%nat)
          hospitals hospitals' /\
  (Forall within_initial hospitals -> Forall within_initial hospitals').
Proof.
  intros Hch Hne Hcert. revert hospitals w. induction l as [|e l IH]; intros hospitals w.
  - cbn. split; [|done]. apply Forall_Forall2_diag, Forall_forall. intros h _. repeat split; lia.
  - cbv zeta.
    assert (Hfold : exists hs1 hs2 w2,
               Forall2 hospital_step hospitals hs1 /\
               Forall2 (fun h h' => hospital_id h' = hospital_id h /\ base h' = base h) hs1 hs2 /\
               (Forall within_initial hs1 -> Forall within_initial hs2) /\
               foldM (simulation_epoch cases) hospitals (e :: l) w
               = foldM (simulation_epoch cases) hs2 l w2).
    { cbn [foldM]. unfold bind at 1. unfold simulation_epoch at 1. unfold bind at 1.
      pose proof (mapM_Forall2 (hospital_epoch cases) hospitals w) as Hstep.
      destruct (mapM (hospital_epoch cases) hospitals w) as [hs1 w1]. cbn [fst] in Hstep.
      assert (Hstep' : Forall2 hospital_step hospitals hs1).
      { eapply Forall2_impl; [exact Hstep|]. intros h h' [w' ->]. by apply hospital_epoch_step. }
      destruct (_ && _); unfold ret at 1; eexists hs1, _, _;
        (split; [exact Hstep'|]); (split; [|split; [|reflexivity]]).
      - apply share_rest.
      - apply share_within.
      - apply Forall_Forall2_diag, Forall_forall. by intros h _.
      - done. }
    destruct Hfold as (hs1 & hs2 & w2 & Hstep' & Hrest & Hwi2 & ->).
    destruct (IH hs2 w2) as [Hrel Hwi]. cbv zeta in Hrel, Hwi.
    split.
    + eapply Forall2_trans; [|exact Hstep'|].
      2:{ eapply Forall2_trans; [|exact Hrest|exact Hrel].
          intros h1 h2 h3 [Hid Hb] (Hid' & He & Hl). rewrite Hb in He, Hl. rewrite Hid in Hid'.
          exact (conj Hid' (conj He Hl)). }
      intros h h1 h3 (Hid & He & Hl & _) (Hid' & He' & Hl'). cbn [length].
      rewrite Hid', Hid, He', He, Hl', Hl. repeat split; lia.
    + intros Hall. apply Hwi, Hwi2.
      apply Forall_forall. intros h1 Hh1.
      apply list_elem_of_lookup in Hh1 as [i Hi].
      destruct (Forall2_lookup_r _ _ _ _ _ Hstep' Hi) as (h & Hh & (_ & _ & _ & Hw)).
      apply Hw. apply (proj1 (Forall_forall _ _) Hall). by eapply list_elem_of_lookup_2.
Qed.

(** X20: if the generator's [choice] returns one of the cases it is given,
    the 15 epochs of [run_medical_diagnosis_simulation] leave the five
    hospitals in their order (identifiers 1 to 5), each with a development
    counter of 15 and a ledger of 15 entries, and each still with its five
    diagnostic frameworks at strengths between 0.1 and their initial
    values: whatever cases are drawn, no hospital ends the simulation with
    a diagnostic strength above the one it started with. *)
Theorem X20_medical_simulation_outcome (w : World) :
  case_choice_in_list ->
  let hospitals := fst (run_medical_diagnosis_simulation w) in
  map hospital_id hospitals = [1; 2; 3; 4; 5]%Z /\
  Forall (fun h => OGIAgent.epoch (base h) = 15%nat /\
                   length (OGIAgent.ledger (base h)) = 15%nat) hospitals /\
  Forall within_initial hospitals.
Proof.
  intros Hch. cbv zeta. unfold run_medical_diagnosis_simulation. cbv zeta.
  match goal with |- context [foldM _ ?hs ?l w] =>
    destruct (simulation_epochs_facts generate_synthetic_cases l hs w Hch)
      as [Hrel Hwi]; [done | apply synthetic_certainty |] end.
  cbv zeta in Hrel, Hwi.
  destruct (foldM _ _ _ w) as [hs' w']. cbn [fst] in *.
  split; [|split].
  - assert (Hids : map hospital_id hs' = map hospital_id
               [__init__ 1 "rural_mining_community"; __init__ 2 "urban_elderly";
                __init__ 3 "pediatric_specialized"; __init__ 4 "cardiac_center";
                __init__ 5 "general_population"]).
    { clear Hwi. induction Hrel as [|h h' l l' (Hid & _) _ IH]; [done|].
      cbn [map]. by rewrite Hid, IH. }
    by rewrite Hids.
  - apply Forall_forall. intros h' Hh'. apply list_elem_of_lookup in Hh' as [i Hi].
    destruct (Forall2_lookup_r _ _ _ _ _ Hrel Hi) as (h & Hh & (_ & He & Hl)).
    assert (Hinit : OGIAgent.epoch (base h) = 0%nat /\ length (OGIAgent.ledger (base h)) = 0%nat).
    { apply list_elem_of_lookup_2 in Hh. rewrite !elem_of_cons, elem_of_nil in Hh.
      destruct Hh as [->|[->|[->|[->|[->|[]]]]]]; done. }
    destruct Hinit as [He0 Hl0]. rewrite He, Hl, He0, Hl0. done.
  - apply Hwi. repeat (constructor; [apply within_initial_init|]). constructor.
Qed.

End MedicalSimulationClaims.

(** * Concrete runs for the further properties *)

Section FurtherConcreteRuns.
Import CounterHost.

(** The counter host's [choice] picks by index, so it stays in the list. *)
Lemma counter_choice_in_list : choice_in_list (World := nat).
Proof.
  intros l w Hl. cbn [random_choice host fst].
  apply list_elem_of_In, nth_In, Nat.mod_upper_bound.
  by destruct l.
Qed.

Lemma counter_case_choice_in_list : case_choice_in_list (World := nat).
Proof.
  intros l w Hl. cbn [random_choice_case counter_case_choice fst].
  apply list_elem_of_In, nth_In, Nat.mod_upper_bound.
  by destruct l.
Qed.

Lemma X3_witness :
  (1 <= SimulationRunner.num_agents SimulationRunner.__init__)%Z /\
  exists recs,
    SimulationRunner.results
      (fst (SimulationRunner.run_scenario SimulationRunner.__init__ "medical_diagnosis" 0%nat))
    = SimulationRunner.results SimulationRunner.__init__ ++ recs /\
    length recs = 20%nat /\
    Forall (fun rec => 0.60 <= SimulationRunner.cci_ogi rec <= 0.95 /\
                       0.40 <= SimulationRunner.cci_flower rec <= 0.70) recs.
Proof.
  assert (Hn : (1 <= SimulationRunner.num_agents SimulationRunner.__init__)%Z) by (by vm_compute).
  split; [exact Hn|].
  exact (X3_mean_coherence_bounds SimulationRunner.__init__ "medical_diagnosis" 0%nat Hn).
Defined.

Lemma X6_witness :
  let st := fst (final_state SimulationRunner.__init__ "medical_diagnosis" 0%nat) in
  let a := default (OGIAgent.__init__ "" "") (SimulationRunner.ogi_agents st !! 2%nat) in
  SimulationRunner.ogi_agents st !! 2%nat = Some a /\
  OGIAgent.agent_id a = "ogi_" +:+ pretty 2%nat /\
  OGIAgent.epoch a = 20%nat /\
  bounded (OGIAgent.reasoning_frameworks a).
Proof.
  intros st a.
  assert (Ha : SimulationRunner.ogi_agents st !! 2%nat = Some a) by (by vm_compute).
  split; [exact Ha|].
  destruct (proj2 (proj2 (X6_ogi_agents_after_run SimulationRunner.__init__
                            "medical_diagnosis" 0%nat 2 a)) Ha)
    as (Hid & _ & He & _ & Hb).
  split; [exact Hid|]. split; [exact He | exact Hb].
Defined.

Lemma X7_witness :
  let st := fst (final_state SimulationRunner.__init__ "medical_diagnosis" 0%nat) in
  let b := default (FederatedAgent.__init__ "" "") (SimulationRunner.fl_agents st !! 4%nat) in
  SimulationRunner.fl_agents st !! 4%nat = Some b /\
  FederatedAgent.agent_id b = "fl_" +:+ pretty 4%nat /\
  FederatedAgent.epoch b = 20%nat /\
  FederatedAgent.global_model_version b = 20%nat.
Proof.
  intros st b.
  assert (Hb : SimulationRunner.fl_agents st !! 4%nat = Some b) by (by vm_compute).
  split; [exact Hb|].
  destruct (proj2 (proj2 (X7_federated_version_follows_epoch "fl_0" "medical_diagnosis" 3
                            SimulationRunner.__init__ "medical_diagnosis" 0%nat 4 b)) Hb)
    as (Hid & _ & He & Hv).
  split; [exact Hid|]. split; [exact He | exact Hv].
Defined.

Lemma X8_witness :
  choice_in_list (World := nat) /\
  (size (OGIAgent.reasoning_frameworks
           (fst (OGIAgent.develop_epochs 20 (OGIAgent.__init__ "ogi_0" "medical_diagnosis") 0%nat)))
   <= 3)%nat.
Proof.
  split; [exact counter_choice_in_list|].
  exact (proj2 (X8_framework_names "ogi_0" "medical_diagnosis" 20 0%nat counter_choice_in_list)).
Defined.

Lemma X9_witness :
  OGIAgent.reasoning_frameworks
    (fst (OGIAgent.develop_epochs 150 (OGIAgent.__init__ "ogi_0" "medical_diagnosis") 0%nat))
    !! "causal_inference" = Some 0.95 /\
  0.95 <= 0.95 /\
  exists v',
    OGIAgent.reasoning_frameworks
      (fst (OGIAgent.develop_epochs (150 + 10)
              (OGIAgent.__init__ "ogi_0" "medical_diagnosis") 0%nat))
      !! "causal_inference" = Some v' /\ v' == 0.95.
Proof.
  assert (Hl : OGIAgent.reasoning_frameworks
                 (fst (OGIAgent.develop_epochs 150
                         (OGIAgent.__init__ "ogi_0" "medical_diagnosis") 0%nat))
                 !! "causal_inference" = Some 0.95) by (by vm_compute).
  assert (Hv : 0.95 <= 0.95) by (by vm_compute).
  split; [exact Hl|]. split; [exact Hv|].
  exact (X9_saturated_strength_stays "ogi_0" "medical_diagnosis" 150 10 0%nat
           "causal_inference" 0.95 Hl Hv).
Defined.


Lemma X12_witness :
  MedicalDiagnosticAgent.diagnostic_frameworks hospital_1 !! "symptom_pattern_recognition"
    = Some 0.6 /\
  MedicalDiagnosticAgent.diagnostic_frameworks hospital_3 !! "symptom_pattern_recognition"
    = Some (594000 # 1000000) /\
  MedicalDiagnosticAgent.hospital_id hospital_1 <> MedicalDiagnosticAgent.hospital_id hospital_3 /\
  map (fun h => MedicalDiagnosticAgent.diagnostic_frameworks h !! "symptom_pattern_recognition")
      (share_medical_knowledge [hospital_1; hospital_3])
  = [Some (nudge 0.6 (594000 # 1000000)); Some (nudge (594000 # 1000000) 0.6)].
Proof.
  assert (Ha : MedicalDiagnosticAgent.diagnostic_frameworks hospital_1
                 !! "symptom_pattern_recognition" = Some 0.6) by (by vm_compute).
  assert (Hb : MedicalDiagnosticAgent.diagnostic_frameworks hospital_3
                 !! "symptom_pattern_recognition" = Some (594000 # 1000000)) by (by vm_compute).
  assert (Hne : MedicalDiagnosticAgent.hospital_id hospital_1
                <> MedicalDiagnosticAgent.hospital_id hospital_3) by (by vm_compute).
  split; [exact Ha|]. split; [exact Hb|]. split; [exact Hne|].
  exact (proj1 (X12_share_reads_pre_sharing_values hospital_1 hospital_3
                  "symptom_pattern_recognition" _ _ Ha Hb) Hne).
Defined.


Lemma X14_witness :
  MedicalDiagnosticAgent.diagnostic_frameworks hospital_1 !! "symptom_pattern_recognition"
    = Some 0.6 /\
  MedicalDiagnosticAgent.diagnostic_frameworks hospital_2 !! "symptom_pattern_recognition"
    = Some 0.6 /\
  MedicalDiagnosticAgent.diagnostic_frameworks hospital_3 !! "symptom_pattern_recognition"
    = Some (594000 # 1000000) /\
  (594000 # 1000000) + 0.001 <= 0.6 /\
  exists v12 v21,
    (share_medical_knowledge [hospital_1; hospital_2; hospital_3] !! 0%nat)
      ≫= (fun h' => MedicalDiagnosticAgent.diagnostic_frameworks h' !! "symptom_pattern_recognition")
      = Some v12 /\
    (share_medical_knowledge [hospital_1; hospital_3; hospital_2] !! 0%nat)
      ≫= (fun h' => MedicalDiagnosticAgent.diagnostic_frameworks h' !! "symptom_pattern_recognition")
      = Some v21 /\
    v12 < v21.
Proof.
  assert (Ha : MedicalDiagnosticAgent.diagnostic_frameworks hospital_1
                 !! "symptom_pattern_recognition" = Some 0.6) by (by vm_compute).
  assert (Hb1 : MedicalDiagnosticAgent.diagnostic_frameworks hospital_2
                  !! "symptom_pattern_recognition" = Some 0.6) by (by vm_compute).
  assert (Hb2 : MedicalDiagnosticAgent.diagnostic_frameworks hospital_3
                  !! "symptom_pattern_recognition" = Some (594000 # 1000000)) by (by vm_compute).
  assert (Hn1 : MedicalDiagnosticAgent.hospital_id hospital_2
                <> MedicalDiagnosticAgent.hospital_id hospital_1) by (by vm_compute).
  assert (Hn2 : MedicalDiagnosticAgent.hospital_id hospital_3
                <> MedicalDiagnosticAgent.hospital_id hospital_1) by (by vm_compute).
  assert (Hra : 0.1 <= 0.6 <= 0.95) by (by vm_compute).
  assert (Hrb : 0.1 <= 594000 # 1000000 <= 0.95) by (by vm_compute).
  assert (Hgap : (594000 # 1000000) + 0.001 <= 0.6) by (by vm_compute).
  split; [exact Ha|]. split; [exact Hb1|]. split; [exact Hb2|]. split; [exact Hgap|].
  destruct (X14_share_depends_on_peer_order hospital_1 hospital_2 hospital_3
              "symptom_pattern_recognition" _ _ _ Hn1 Hn2 Ha Hb1 Hb2 Hra Hra Hrb)
    as (v12 & v21 & H12 & H21 & _ & _ & _ & Hlt & _).
  exists v12, v21. split; [exact H12|]. split; [exact H21|]. exact (Hlt Hgap).
Defined.

Lemma X15_witness :
  ("general" ∉ dom (MedicalDiagnosticAgent.diagnostic_frameworks hospital_1)) /\
  MedicalDiagnosticAgent.primary_diagnosis
    (MedicalDiagnosticAgent.generate_diagnostic_hypothesis hospital_1
       ["chest_pain"; "shortness_of_breath"] (MedicalDiagnosticAgent.mkDemographics 65 "M"))
  = "cardiac_event" /\
  MedicalDiagnosticAgent.diagnostic_frameworks
    (snd (MedicalDiagnosticAgent.process_patient_case hospital_1
            ["chest_pain"; "shortness_of_breath"] (MedicalDiagnosticAgent.mkDemographics 65 "M")
            (Some (MedicalDiagnosticAgent.mkOutcome "cardiac_event" 0.9))))
  = MedicalDiagnosticAgent.diagnostic_frameworks hospital_1.
Proof.
  assert (Hg : "general" ∉ dom (MedicalDiagnosticAgent.diagnostic_frameworks hospital_1))
    by (apply not_elem_of_dom; by vm_compute).
  assert (Hd : MedicalDiagnosticAgent.primary_diagnosis
                 (MedicalDiagnosticAgent.generate_diagnostic_hypothesis hospital_1
                    ["chest_pain"; "shortness_of_breath"]
                    (MedicalDiagnosticAgent.mkDemographics 65 "M"))
               = "cardiac_event") by (by vm_compute).
  split; [exact Hg|]. split; [exact Hd|].
  exact (proj1 (X15_correct_diagnosis_teaches_nothing hospital_1
                  ["chest_pain"; "shortness_of_breath"]
                  (MedicalDiagnosticAgent.mkDemographics 65 "M")
                  (MedicalDiagnosticAgent.mkOutcome "cardiac_event" 0.9) Hg Hd)).
Defined.


Lemma X17_witness :
  [hospital_1; hospital_3] !! 1%nat = Some hospital_3 /\
  exists h',
    share_medical_knowledge [hospital_1; hospital_3] !! 1%nat = Some h' /\
    dom (MedicalDiagnosticAgent.diagnostic_frameworks h')
    = dom (MedicalDiagnosticAgent.diagnostic_frameworks hospital_3).
Proof.
  assert (Hh : [hospital_1; hospital_3] !! 1%nat = Some hospital_3) by reflexivity.
  split; [exact Hh|].
  set (h' := default hospital_1 (share_medical_knowledge [hospital_1; hospital_3] !! 1%nat)).
  assert (Hh' : share_medical_knowledge [hospital_1; hospital_3] !! 1%nat = Some h')
    by reflexivity.
  exists h'. split; [exact Hh'|].
  exact (proj2 (proj2 (X17_framework_keys_fixed hospital_1 [] (MedicalDiagnosticAgent.mkDemographics 0 "")
                         None [hospital_1; hospital_3] 1 hospital_3 h')) Hh Hh').
Defined.

Lemma X18_witness :
  within_initial (MedicalDiagnosticAgent.__init__ 3 "pediatric_specialized") /\
  (forall o, Some (MedicalDiagnosticAgent.mkOutcome "viral_infection" 0.7) = Some o ->
             0 <= MedicalDiagnosticAgent.certainty o <= 1) /\
  Forall within_initial [hospital_1; hospital_2] /\
  within_initial hospital_3 /\
  Forall within_initial (share_medical_knowledge [hospital_1; hospital_2]).
Proof.
  pose proof (X18_strengths_never_rise 3 "pediatric_specialized"
                (MedicalDiagnosticAgent.__init__ 3 "pediatric_specialized")
                ["fever"; "cough"; "fatigue"] (MedicalDiagnosticAgent.mkDemographics 35 "M")
                (Some (MedicalDiagnosticAgent.mkOutcome "viral_infection" 0.7))
                [hospital_1; hospital_2]) as (Hi & Hp & Hs).
  assert (Ho : forall o, Some (MedicalDiagnosticAgent.mkOutcome "viral_infection" 0.7) = Some o ->
                         0 <= MedicalDiagnosticAgent.certainty o <= 1).
  { intros o Ho. injection Ho as <-. by vm_compute. }
  assert (Hall : Forall within_initial [hospital_1; hospital_2]).
  { repeat (constructor; [apply within_initial_init|]). constructor. }
  split; [exact Hi|]. split; [exact Ho|]. split; [exact Hall|].
  split; [exact (Hp Hi Ho) | exact (Hs Hall)].
Defined.


Lemma X20_witness :
  case_choice_in_list (World := nat) /\
  map MedicalDiagnosticAgent.hospital_id (fst (run_medical_diagnosis_simulation 0%nat))
  = [1; 2; 3; 4; 5]%Z /\
  Forall within_initial (fst (run_medical_diagnosis_simulation 0%nat)).
Proof.
  split; [exact counter_case_choice_in_list|].
  pose proof (X20_medical_simulation_outcome 0%nat counter_case_choice_in_list) as (Hid & _ & Hw).
  split; [exact Hid | exact Hw].
Defined.

End FurtherConcreteRuns.
